(** * Awww widgets of castello-rev: a shallow embedding of
      [src/ui/js/castello-rev-ui.js] and the properties of its value model,
      range model, knob and resize handle.

    A widget element is a record of its own properties; a method is a
    function from the element to an outcome that carries the element back,
    also when the method throws.  Overridden methods are resolved on the
    class of the receiver.

    Numbers are exact rationals ([Q]); [==] on numbers is [Qeq].  A
    computation that would produce [NaN] or an infinity (a non-numeric
    operand, a zero divisor) stops with [NonFinite]: rounding, [NaN] and
    the infinities of IEEE doubles are not followed.

    Of the document, the model keeps the text of the element's children,
    the number of listener sets added, the log of dispatched events and
    the sizes the code reads; the device listeners themselves, the inline
    styles and the theme graphics are left out. *)

From Stdlib Require Import QArith Qminmax Qround Qabs Lqa Lia.
From stdpp Require Import base option list strings gmap.

Local Open Scope Q_scope.

(** ** JavaScript values stored by the widgets *)

(** The values the widgets and their callers store: [undefined], booleans
    ([keepAspectRatio]), numbers, and the [{width, height}] object literal
    of the resize handle, which carries the identity of its allocation. *)
Inductive value : Type :=
| VUndefined
| VBoolean (b : bool)
| VNumber (q : Q)
| VSize (ref : nat) (width height : Q).

(** ToBoolean. *)
Definition truthy (v : value) : bool :=
  match v with
  | VUndefined => false
  | VBoolean b => b
  | VNumber q => negb (Qeq_bool q 0)
  | VSize _ _ _ => true
  end.

(** [a || b]. *)
Definition js_or (a b : value) : value := if truthy a then a else b.

(** ToNumber; [None] stands for [NaN]. *)
Definition to_number (v : value) : option Q :=
  match v with
  | VNumber q => Some q
  | VBoolean b => Some (if b then 1 else 0)
  | VUndefined => None
  | VSize _ _ _ => None
  end.

(** [a == b]: numbers and booleans compare as numbers, objects by
    identity, [undefined] only equals itself. *)
Definition loose_eq (a b : value) : bool :=
  match a, b with
  | VUndefined, VUndefined => true
  | VSize r _ _, VSize r' _ _ => Nat.eqb r r'
  | VUndefined, _ | _, VUndefined => false
  | VSize _ _ _, _ | _, VSize _ _ _ => false
  | _, _ =>
      match to_number a, to_number b with
      | Some x, Some y => Qeq_bool x y
      | _, _ => false
      end
  end.

(** [a === false]. *)
Definition is_false (a : value) : bool :=
  match a with VBoolean false => true | _ => false end.

(** ** The option bag *)

(** [this._opt]: a bag of named options; a key never assigned reads
    [undefined] (the bag is a function object, and none of the options the
    widgets read is a property a function has by itself). *)
Definition opt_get (o : gmap string value) (k : string) : value :=
  default VUndefined (o !! k).

(** ** Events and the widget object *)

(** A [ControlEvent], with the properties the gesture normalizer sets. *)
Record ControlEvent : Type := mkControlEvent {
  type : string;
  shiftKey : value;
  ctrlKey : value;
  clientX : value;
  clientY : value;
  movementX : value;
  movementY : value
}.

(** What [dispatchEvent] hands to the listeners: a control event or an
    [InputEvent('input')] carrying [ev.value]. *)
Inductive event : Type :=
| Control (ev : ControlEvent)
| Input (v : value).

(** The [innerText] of a child element. *)
Inductive text : Type :=
| Blank
| Shown (q : Q)
| ShownNaN.

(** The classes of the file. *)
Inductive class : Type :=
| Widget
| TouchAndMouseControllableWidget
| InputWidget
| RangeInputWidget
| ResizeHandle
| Knob.

(** A widget element: its class and own properties.  A property holds
    [VUndefined] until first assigned; [_opt] is [None] until the [opt]
    getter creates the bag.  [listeners] counts the listener sets added by
    [_instanceInit]; [dispatched] logs dispatched events, latest first;
    [fresh] is the next unused object identity. *)
Record widget : Type := mkWidget {
  cls : class;
  _opt : option (gmap string value);
  _instanceInitialized : bool;
  listeners : nat;
  _prevClientX : value;
  _prevClientY : value;
  _value : value;
  _aspectRatio : value;
  _width : value;
  _height : value;
  _startValue : value;
  _axis : value;
  _drag_d : value;
  children : list text;
  clientWidth : Q;
  clientHeight : Q;
  dispatched : list event;
  fresh : nat
}.

(** [document.createElement] for a class [c], laid out at [cw] x [ch]. *)
Definition createElement (c : class) (cw ch : Q) : widget :=
  mkWidget c None false 0 VUndefined VUndefined VUndefined VUndefined VUndefined
    VUndefined VUndefined VUndefined VUndefined [] cw ch [] 0.

Definition set_opt (o : gmap string value) (w : widget) : widget :=
  mkWidget (cls w) (Some o) (_instanceInitialized w) (listeners w) (_prevClientX w)
    (_prevClientY w) (_value w) (_aspectRatio w) (_width w) (_height w) (_startValue w)
    (_axis w) (_drag_d w) (children w) (clientWidth w) (clientHeight w) (dispatched w)
    (fresh w).

Definition set_instanceInitialized (b : bool) (w : widget) : widget :=
  mkWidget (cls w) (_opt w) b (listeners w) (_prevClientX w)
    (_prevClientY w) (_value w) (_aspectRatio w) (_width w) (_height w) (_startValue w)
    (_axis w) (_drag_d w) (children w) (clientWidth w) (clientHeight w) (dispatched w)
    (fresh w).

Definition set_listeners (n : nat) (w : widget) : widget :=
  mkWidget (cls w) (_opt w) (_instanceInitialized w) n (_prevClientX w)
    (_prevClientY w) (_value w) (_aspectRatio w) (_width w) (_height w) (_startValue w)
    (_axis w) (_drag_d w) (children w) (clientWidth w) (clientHeight w) (dispatched w)
    (fresh w).

Definition set_prevClient (x y : value) (w : widget) : widget :=
  mkWidget (cls w) (_opt w) (_instanceInitialized w) (listeners w) x y
    (_value w) (_aspectRatio w) (_width w) (_height w) (_startValue w)
    (_axis w) (_drag_d w) (children w) (clientWidth w) (clientHeight w) (dispatched w)
    (fresh w).

Definition set_value (v : value) (w : widget) : widget :=
  mkWidget (cls w) (_opt w) (_instanceInitialized w) (listeners w) (_prevClientX w)
    (_prevClientY w) v (_aspectRatio w) (_width w) (_height w) (_startValue w)
    (_axis w) (_drag_d w) (children w) (clientWidth w) (clientHeight w) (dispatched w)
    (fresh w).

Definition set_aspectRatio (v : value) (w : widget) : widget :=
  mkWidget (cls w) (_opt w) (_instanceInitialized w) (listeners w) (_prevClientX w)
    (_prevClientY w) (_value w) v (_width w) (_height w) (_startValue w)
    (_axis w) (_drag_d w) (children w) (clientWidth w) (clientHeight w) (dispatched w)
    (fresh w).

Definition set_size (wd ht : value) (w : widget) : widget :=
  mkWidget (cls w) (_opt w) (_instanceInitialized w) (listeners w) (_prevClientX w)
    (_prevClientY w) (_value w) (_aspectRatio w) wd ht (_startValue w)
    (_axis w) (_drag_d w) (children w) (clientWidth w) (clientHeight w) (dispatched w)
    (fresh w).

Definition set_startValue (v : value) (w : widget) : widget :=
  mkWidget (cls w) (_opt w) (_instanceInitialized w) (listeners w) (_prevClientX w)
    (_prevClientY w) (_value w) (_aspectRatio w) (_width w) (_height w) v
    (_axis w) (_drag_d w) (children w) (clientWidth w) (clientHeight w) (dispatched w)
    (fresh w).

Definition set_axis (v : value) (w : widget) : widget :=
  mkWidget (cls w) (_opt w) (_instanceInitialized w) (listeners w) (_prevClientX w)
    (_prevClientY w) (_value w) (_aspectRatio w) (_width w) (_height w) (_startValue w)
    v (_drag_d w) (children w) (clientWidth w) (clientHeight w) (dispatched w)
    (fresh w).

Definition set_drag_d (v : value) (w : widget) : widget :=
  mkWidget (cls w) (_opt w) (_instanceInitialized w) (listeners w) (_prevClientX w)
    (_prevClientY w) (_value w) (_aspectRatio w) (_width w) (_height w) (_startValue w)
    (_axis w) v (children w) (clientWidth w) (clientHeight w) (dispatched w)
    (fresh w).

Definition set_children (cs : list text) (w : widget) : widget :=
  mkWidget (cls w) (_opt w) (_instanceInitialized w) (listeners w) (_prevClientX w)
    (_prevClientY w) (_value w) (_aspectRatio w) (_width w) (_height w) (_startValue w)
    (_axis w) (_drag_d w) cs (clientWidth w) (clientHeight w) (dispatched w)
    (fresh w).

Definition set_dispatched (l : list event) (w : widget) : widget :=
  mkWidget (cls w) (_opt w) (_instanceInitialized w) (listeners w) (_prevClientX w)
    (_prevClientY w) (_value w) (_aspectRatio w) (_width w) (_height w) (_startValue w)
    (_axis w) (_drag_d w) (children w) (clientWidth w) (clientHeight w) l
    (fresh w).

Definition set_fresh (n : nat) (w : widget) : widget :=
  mkWidget (cls w) (_opt w) (_instanceInitialized w) (listeners w) (_prevClientX w)
    (_prevClientY w) (_value w) (_aspectRatio w) (_width w) (_height w) (_startValue w)
    (_axis w) (_drag_d w) (children w) (clientWidth w) (clientHeight w) (dispatched w)
    n.

(** What the page and the device supply. *)
Record env : Type := mkEnv {
  body_clientWidth : Q;
  body_clientHeight : Q;
  screen_width : Q;
  screen_height : Q;
  devicePixelRatio : Q
}.

(** ** Methods as state transformers that may throw *)

(** [TypeError], and the [NotSupportedError] of the element registry. *)
Inductive exn : Type :=
| TypeError (msg : string)
| NotSupportedError.

(** The outcome of running a method on a widget: a normal return, an
    exception (the object keeps what was assigned before the throw), or a
    number that left the rationals. *)
Inductive result (A : Type) : Type :=
| Ret (a : A) (w : widget)
| Throw (e : exn) (w : widget)
| NonFinite.
Arguments Ret {A} a w.
Arguments Throw {A} e w.
Arguments NonFinite {A}.

Definition M (A : Type) : Type := widget -> result A.

Definition ret {A} (a : A) : M A := fun w => Ret a w.

Definition bind {A B} (m : M A) (k : A -> M B) : M B :=
  fun w =>
    match m w with
    | Ret a w' => k a w'
    | Throw e w' => Throw e w'
    | NonFinite => NonFinite
    end.

Declare Scope js_scope.
Delimit Scope js_scope with js.
Notation "'let*' x := m 'in' k" := (bind m (fun x => k))
  (at level 10, x name, m at level 100, k at level 200) : js_scope.
Notation "m ;; k" := (bind m (fun _ => k))
  (at level 100, k at level 200, right associativity) : js_scope.
Local Open Scope js_scope.

Definition read {A} (f : widget -> A) : M A := fun w => Ret (f w) w.
Definition assign (f : widget -> widget) : M unit := fun w => Ret tt (f w).

(** Reading or setting a property of [undefined]; the wording is the
    engine's. *)
Definition undefined_has_no (k : string) : exn :=
  TypeError ("Cannot read properties of undefined (reading '" +:+ k +:+ "')").

Definition undefined_takes_no (k : string) : exn :=
  TypeError ("Cannot set properties of undefined (setting '" +:+ k +:+ "')").

(** A value used as a number. *)
Definition number (v : value) : M Q :=
  fun w => match to_number v with Some q => Ret q w | None => NonFinite end.

(** [a / b] on numbers. *)
Definition divide (a b : Q) : M Q :=
  fun w => if Qeq_bool b 0 then NonFinite else Ret (a / b) w.

Definition Qlt_bool (a b : Q) : bool := negb (Qle_bool b a).

(** [dispatchEvent]. *)
Definition dispatchEvent (e : event) : M unit :=
  assign (fun w => set_dispatched (e :: dispatched w) w).

(** ** class Widget *)

(** [get opt()]: creates the bag on first access. *)
Definition opt : M (gmap string value) :=
  fun w =>
    match _opt w with
    | Some o => Ret o w
    | None => Ret ∅ (set_opt ∅ w)
    end.

(** [elem.opt.k = v]. *)
Definition opt_assign (k : string) (v : value) : M unit :=
  let* o := opt in assign (set_opt (<[k := v]> o)).


(** [this._opt.k], without the getter. *)
Definition _opt_read (k : string) : M value :=
  fun w =>
    match _opt w with
    | Some o => Ret (opt_get o k) w
    | None => Throw (undefined_has_no k) w
    end.

(** [this._opt.k = v], without the getter. *)
Definition _opt_write (k : string) (v : value) : M unit :=
  fun w =>
    match _opt w with
    | Some o => Ret tt (set_opt (<[k := v]> o) w)
    | None => Throw (undefined_takes_no k) w
    end.

(** ** class InputWidget *)

(** [get value()]. *)
Definition get_value (w : widget) : value := _value w.

(** [Math.floor(10 * value) / 10], as shown by the label. *)
Definition label_text (v : value) : text :=
  match to_number v with
  | Some q => Shown (inject_Z (Qfloor (10 * q)) / 10)
  | None => ShownNaN
  end.

(** [_onSetValue]: [Knob] writes the text of its first child, the other
    classes do nothing. *)
Definition _onSetValue (v : value) : M unit :=
  fun w =>
    match cls w with
    | Knob =>
        match children w with
        | _ :: cs => Ret tt (set_children (label_text v :: cs) w)
        | [] => Throw (undefined_takes_no "innerText") w
        end
    | _ => Ret tt w
    end.

(** [_setValue(value, runInternalCallback)]. *)
Definition _setValue (v : value) (runInternalCallback : value) : M unit :=
  fun w =>
    if loose_eq (_value w) v then Ret tt w
    else
      (assign (set_value v) ;;
       (if negb (is_false runInternalCallback)
        then let* cur := read _value in _onSetValue cur
        else ret tt) ;;
       let* cur := read _value in
       dispatchEvent (Input cur)) w.

(** [set value(value)]. *)
Definition set_value_public (v : value) : M unit := _setValue v VUndefined.

(** ** class RangeInputWidget *)

Definition _range : M Q :=
  let* hi := _opt_read "maxValue" in
  let* lo := _opt_read "minValue" in
  let* hi := number hi in
  let* lo := number lo in
  ret (hi - lo).

Definition _clamp (v : Q) : M Q :=
  let* lo := _opt_read "minValue" in
  let* hi := _opt_read "maxValue" in
  let* lo := number lo in
  let* hi := number hi in
  ret (Qmax lo (Qmin hi v)).

Definition _normalize (v : Q) : M Q :=
  let* lo := _opt_read "minValue" in
  let* lo := number lo in
  let* r := _range in
  divide (v - lo) r.


(** ** [_instanceInit], class by class *)

Definition Widget__instanceInit : M unit := ret tt.

(** Adds the touch listeners and the [mousedown] listener. *)
Definition TouchAndMouseControllableWidget__instanceInit : M unit :=
  Widget__instanceInit ;;
  assign (fun w => set_listeners (S (listeners w)) w).

Definition InputWidget__instanceInit : M unit :=
  TouchAndMouseControllableWidget__instanceInit ;;
  assign (set_value (VNumber 0)).

Definition RangeInputWidget__instanceInit : M unit :=
  InputWidget__instanceInit ;;
  (let* lo := _opt_read "minValue" in _opt_write "minValue" (js_or lo (VNumber 0))) ;;
  (let* hi := _opt_read "maxValue" in _opt_write "maxValue" (js_or hi (VNumber 1))).

(** The inline styles and the theme graphic are left out. *)
Definition ResizeHandle__instanceInit (e : env) : M unit :=
  InputWidget__instanceInit ;;
  (let* mw := _opt_read "minWidth" in
   _opt_write "minWidth" (js_or mw (VNumber (body_clientWidth e)))) ;;
  (let* mh := _opt_read "minHeight" in
   _opt_write "minHeight" (js_or mh (VNumber (body_clientHeight e)))) ;;
  (let* ms := _opt_read "maxScale" in
   if truthy ms then
     (let* s := _opt_read "maxScale" in
      let* mw := _opt_read "minWidth" in
      let* s := number s in
      let* mw := number mw in
      _opt_write "maxWidth" (VNumber (s * mw))) ;;
     (let* s := _opt_read "maxScale" in
      let* mh := _opt_read "minHeight" in
      let* s := number s in
      let* mh := number mh in
      _opt_write "maxHeight" (VNumber (s * mh)))
   else
     (let* xw := _opt_read "maxWidth" in
      _opt_write "maxWidth" (js_or xw (VNumber (screen_width e)))) ;;
     (let* xh := _opt_read "maxHeight" in
      _opt_write "maxHeight" (js_or xh (VNumber (screen_height e))))) ;;
  (let* k := _opt_read "keepAspectRatio" in
   _opt_write "keepAspectRatio" (VBoolean (if is_false k then false else true))) ;;
  (let* mw := _opt_read "minWidth" in
   let* mh := _opt_read "minHeight" in
   let* mw := number mw in
   let* mh := number mh in
   let* r := divide mw mh in
   assign (set_aspectRatio (VNumber r))) ;;
  assign (set_size (VNumber 0) (VNumber 0)).

(** [appendChild(document.createElement('label'))]. *)
Definition Knob__instanceInit : M unit :=
  RangeInputWidget__instanceInit ;;
  assign (fun w => set_children (children w ++ [Blank]) w).

(** [this._instanceInit()], resolved on the class of the receiver. *)
Definition _instanceInit (e : env) : M unit :=
  fun w =>
    match cls w with
    | Widget => Widget__instanceInit w
    | TouchAndMouseControllableWidget => TouchAndMouseControllableWidget__instanceInit w
    | InputWidget => InputWidget__instanceInit w
    | RangeInputWidget => RangeInputWidget__instanceInit w
    | ResizeHandle => ResizeHandle__instanceInit e w
    | Knob => Knob__instanceInit w
    end.

(** ** [connectedCallback] *)

Section Lifecycle.

(** The [_instanceInit] in effect for the receiver. *)
Variable hook : M unit.

Definition connectedCallback_with : M unit :=
  fun w =>
    if negb (_instanceInitialized w)
    then (hook ;; assign (set_instanceInitialized true)) w
    else Ret tt w.

(** The element enters a document [n] times.  An exception raised by a
    callback is reported by the browser and the element stays as the
    callback left it. *)
Fixpoint connections_with (n : nat) (w : widget) : option widget :=
  match n with
  | O => Some w
  | S n' =>
      match connectedCallback_with w with
      | Ret _ w' => connections_with n' w'
      | Throw _ w' => connections_with n' w'
      | NonFinite => None
      end
  end.

End Lifecycle.

Definition connectedCallback (e : env) : M unit :=
  connectedCallback_with (_instanceInit e).

Definition connections (e : env) : nat -> widget -> option widget :=
  connections_with (_instanceInit e).

(** ** The control hooks of the two widgets *)

Definition ResizeHandle__onControlEventStart (e : env) (ev : ControlEvent) : M unit :=
  assign (set_size (VNumber (body_clientWidth e)) (VNumber (body_clientHeight e))).

Definition ResizeHandle__onControlEventContinue (e : env) (ev : ControlEvent) : M unit :=
  let* cw := read _width in
  let* cw := number cw in
  let* mx := number (movementX ev) in
  let newWidth := cw + mx in
  let* lo := _opt_read "minWidth" in
  let* hi := _opt_read "maxWidth" in
  let* lo := number lo in
  let* hi := number hi in
  let newWidth := Qmax lo (Qmin hi newWidth) in
  let* ch := read _height in
  let* ch := number ch in
  let* my := number (movementY ev) in
  let newHeight := ch + my in
  let* lo := _opt_read "minHeight" in
  let* hi := _opt_read "maxHeight" in
  let* lo := number lo in
  let* hi := number hi in
  let newHeight := Qmax lo (Qmin hi newHeight) in
  let* keep := _opt_read "keepAspectRatio" in
  let* new :=
    (if truthy keep then
       let* r := read _aspectRatio in
       let* r := number r in
       if Qlt_bool my mx
       then (let* h := divide newWidth r in ret (newWidth, h))
       else ret (newHeight * r, newHeight)
     else ret (newWidth, newHeight)) in
  let newWidth := fst new in
  let newHeight := snd new in
  if negb (Qeq_bool cw newWidth) || negb (Qeq_bool ch newHeight) then
    assign (set_size (VNumber newWidth) (VNumber newHeight)) ;;
    let k := devicePixelRatio e in
    let* r := read fresh in
    assign (set_fresh (S r)) ;;
    _setValue (VSize r (k * newWidth) (k * newHeight)) VUndefined
  else ret tt.

Definition Knob__onControlEventStart (ev : ControlEvent) : M unit :=
  (let* v := read _value in assign (set_startValue v)) ;;
  assign (set_axis (VNumber 0)) ;;
  assign (set_drag_d (VNumber 0)).

Definition Knob__onControlEventContinue (ev : ControlEvent) : M unit :=
  let* ax := read _axis in
  let* ax := number ax in
  if Qlt_bool (Qabs ax) 3 then
    let* mx := number (movementX ev) in
    let* my := number (movementY ev) in
    assign (set_axis (VNumber (ax + (Qabs mx - Qabs my))))
  else
    let* dv :=
      (if Qlt_bool 0 ax then
         (let* d := read _drag_d in
          let* d := number d in
          let* mx := number (movementX ev) in
          assign (set_drag_d (VNumber (d + mx)))) ;;
         let* r := _range in
         let* d := read _drag_d in
         let* d := number d in
         let* cw := read clientWidth in
         divide (r * d) cw
       else
         (let* d := read _drag_d in
          let* d := number d in
          let* my := number (movementY ev) in
          assign (set_drag_d (VNumber (d - my)))) ;;
         let* r := _range in
         let* d := read _drag_d in
         let* d := number d in
         let* ch := read clientHeight in
         divide (r * d) ch) in
    let* sv := read _startValue in
    let* sv := number sv in
    let* c := _clamp (sv + dv) in
    _setValue (VNumber c) VUndefined.

(** The hooks, resolved on the class of the receiver; the base class has
    no-ops. *)
Definition _onControlEventStart (e : env) (ev : ControlEvent) : M unit :=
  fun w =>
    match cls w with
    | ResizeHandle => ResizeHandle__onControlEventStart e ev w
    | Knob => Knob__onControlEventStart ev w
    | _ => Ret tt w
    end.

Definition _onControlEventContinue (e : env) (ev : ControlEvent) : M unit :=
  fun w =>
    match cls w with
    | ResizeHandle => ResizeHandle__onControlEventContinue e ev w
    | Knob => Knob__onControlEventContinue ev w
    | _ => Ret tt w
    end.

Definition _onControlEventEnd (e : env) (ev : ControlEvent) : M unit := ret tt.

(** ** class TouchAndMouseControllableWidget: the gesture normalizer *)

(** The modifier keys of the device event. *)
Record OriginalEvent : Type := mkOriginalEvent {
  orig_shiftKey : value;
  orig_ctrlKey : value
}.

Definition _createControlEvent (name : string) (originalEvent : OriginalEvent) : ControlEvent :=
  mkControlEvent name (orig_shiftKey originalEvent) (orig_ctrlKey originalEvent)
    VUndefined VUndefined VUndefined VUndefined.

Definition _handleInputStart (e : env) (originalEvent : OriginalEvent) (x y : value) : M unit :=
  let ev := _createControlEvent "controlstart" originalEvent in
  let ev := mkControlEvent (type ev) (shiftKey ev) (ctrlKey ev) x y
              (movementX ev) (movementY ev) in
  assign (set_prevClient x y) ;;
  dispatchEvent (Control ev) ;;
  _onControlEventStart e ev.

Definition _handleInputContinue (e : env) (originalEvent : OriginalEvent) (x y : value) : M unit :=
  let ev := _createControlEvent "controlcontinue" originalEvent in
  let* px := read _prevClientX in
  let* xq := number x in
  let* px := number px in
  let* py := read _prevClientY in
  let* yq := number y in
  let* py := number py in
  let ev := mkControlEvent (type ev) (shiftKey ev) (ctrlKey ev) x y
              (VNumber (xq - px)) (VNumber (yq - py)) in
  assign (set_prevClient x y) ;;
  dispatchEvent (Control ev) ;;
  _onControlEventContinue e ev.

Definition _handleInputEnd (e : env) (originalEvent : OriginalEvent) : M unit :=
  let ev := _createControlEvent "controlend" originalEvent in
  dispatchEvent (Control ev) ;;
  _onControlEventEnd e ev.

(** A control event of the continue phase with the given movement. *)
Definition movement (mx my : Q) : ControlEvent :=
  mkControlEvent "controlcontinue" VUndefined VUndefined VUndefined VUndefined
    (VNumber mx) (VNumber my).

(** Feeds the continue hook one event after the other. *)
Fixpoint continues (e : env) (evs : list ControlEvent) : M unit :=
  match evs with
  | [] => ret tt
  | ev :: evs' => _onControlEventContinue e ev ;; continues e evs'
  end.

(** ** Static side: class declarations and registration *)

Module Registration.

(** A class of the hierarchy: [Widget] itself, or a class that extends
    another one, with its name and the tag its own static
    [_unqualifiedNodeName] getter returns when it declares one. *)
Inductive decl : Type :=
| Base
| Extends (name : string) (tag : option string) (super : decl).

#[export] Instance decl_eq_dec : EqDecision decl.
Proof. solve_decision. Defined.

(** [cls.name]. *)
Definition name (c : decl) : string :=
  match c with
  | Base => "Widget"
  | Extends n _ _ => n
  end.

(** The static getter found from [c] upwards, run with [this] bound to
    [receiver]. *)
Fixpoint getter (c receiver : decl) : exn + string :=
  match c with
  | Base => inl (TypeError ("_unqualifiedNodeName not implemented for " +:+ name receiver))
  | Extends _ (Some t) _ => inr t
  | Extends _ None super => getter super receiver
  end.

Definition _unqualifiedNodeName (c : decl) : exn + string := getter c c.

Section StaticInit.

(** The registry of the page and its [window.customElements.define]. *)
Variable registry : Type.
Variable define : string -> decl -> registry -> exn + registry.

(** [Widget._staticInit], inherited by every class. *)
Definition _staticInit (c : decl) (r : registry) : exn + registry :=
  match _unqualifiedNodeName c with
  | inl e => inl e
  | inr t => define ("a-" +:+ t) c r
  end.

(** [classes.forEach((cls) => cls._staticInit())]; the first exception
    ends the loop. *)
Fixpoint forEach_staticInit (classes : list decl) (r : registry) : exn + registry :=
  match classes with
  | [] => inr r
  | c :: rest =>
      match _staticInit c r with
      | inl e => inl e
      | inr r' => forEach_staticInit rest r'
      end
  end.

End StaticInit.

(** Some class from [c] upwards, below [Widget], declares the tag. *)
Fixpoint provides_tag (c : decl) : bool :=
  match c with
  | Base => false
  | Extends _ (Some _) _ => true
  | Extends _ None super => provides_tag super
  end.

(** The classes of the file. *)
Definition TouchAndMouseControllableWidget : decl :=
  Extends "TouchAndMouseControllableWidget" None Base.
Definition InputWidget : decl :=
  Extends "InputWidget" None TouchAndMouseControllableWidget.
Definition RangeInputWidget : decl :=
  Extends "RangeInputWidget" None InputWidget.
Definition ResizeHandle : decl :=
  Extends "ResizeHandle" (Some "resize-handle") InputWidget.
Definition Knob : decl :=
  Extends "Knob" (Some "knob") RangeInputWidget.

(** A registry as a list of definitions, whose [define] refuses, as the
    platform's does, a name or a class that is already defined. *)
Definition define_once (n : string) (c : decl) (r : list (string * decl))
  : exn + list (string * decl) :=
  if decide (n ∈ r.*1) then inl NotSupportedError
  else if decide (c ∈ r.*2) then inl NotSupportedError
  else inr (r ++ [(n, c)]).

(** [ResizeHandle._staticInit]: registers, then stores the theme
    graphics; the flag tells whether [_themeSvgData] is set. *)
Definition ResizeHandle__staticInit (r : list (string * decl) * bool)
  : exn + (list (string * decl) * bool) :=
  match _staticInit _ define_once ResizeHandle (fst r) with
  | inl e => inl e
  | inr r' => inr (r', true)
  end.

End Registration.

(** The declaration behind each class of widget elements. *)
Definition declaration (c : class) : Registration.decl :=
  match c with
  | Widget => Registration.Base
  | TouchAndMouseControllableWidget => Registration.TouchAndMouseControllableWidget
  | InputWidget => Registration.InputWidget
  | RangeInputWidget => Registration.RangeInputWidget
  | ResizeHandle => Registration.ResizeHandle
  | Knob => Registration.Knob
  end.

(** A control event of the given phase with no coordinates. *)
Definition phase (name : string) : ControlEvent :=
  mkControlEvent name VUndefined VUndefined VUndefined VUndefined VUndefined VUndefined.

(** One gesture as the hooks see it: start, the continue steps, end. *)
Definition gesture (e : env) (steps : list ControlEvent) : M unit :=
  _onControlEventStart e (phase "controlstart") ;;
  continues e steps ;;
  _onControlEventEnd e (phase "controlend").

(** The classes that carry a value. *)
Definition is_input_class (c : class) : bool :=
  match c with
  | InputWidget | RangeInputWidget | ResizeHandle | Knob => true
  | Widget | TouchAndMouseControllableWidget => false
  end.

(** The bag as [RangeInputWidget._instanceInit] leaves it. *)
Definition range_defaults (o : gmap string value) : gmap string value :=
  let o1 := <["minValue" := js_or (opt_get o "minValue") (VNumber 0)]> o in
  <["maxValue" := js_or (opt_get o1 "maxValue") (VNumber 1)]> o1.

(** [triple I E m]: from a widget satisfying [I], the method [m] returns
    in a widget satisfying [I] or throws in one satisfying [E]. *)
Definition triple {A} (I E : widget -> Prop) (m : M A) : Prop :=
  forall w, I w ->
    match m w with
    | Ret _ w' => I w'
    | Throw _ w' => E w'
    | NonFinite => True
    end.



(** The continue events of a list of movements. *)
Definition movements (ms : list (Q * Q)) : list ControlEvent :=
  map (fun m => movement (fst m) (snd m)) ms.

(** One gesture as the device reports it: the pointer goes down at
    ([x], [y]), moves through the points of [path] and is released. *)
Fixpoint moves (e : env) (originalEvent : OriginalEvent) (path : list (Q * Q)) : M unit :=
  match path with
  | [] => ret tt
  | p :: path' =>
      _handleInputContinue e originalEvent (VNumber (fst p)) (VNumber (snd p)) ;;
      moves e originalEvent path'
  end.

Definition drag (e : env) (originalEvent : OriginalEvent) (x y : Q) (path : list (Q * Q))
  : M unit :=
  _handleInputStart e originalEvent (VNumber x) (VNumber y) ;;
  moves e originalEvent path ;;
  _handleInputEnd e originalEvent.

(** The values carried by the [input] events of a log. *)
Fixpoint inputs (l : list event) : list value :=
  match l with
  | [] => []
  | Input v :: l' => v :: inputs l'
  | Control _ :: l' => inputs l'
  end.

(** ** The widgets of the plugin page *)

(** A page of 400 x 200 CSS pixels on a 1920 x 1080 screen, on a device
    of pixel ratio [k]. *)
Definition page (k : Q) : env := mkEnv 400 200 1920 1080 k.

(** The widget a method leaves behind, whether it returned or threw (the
    widget it started from where the numbers leave the rationals). *)
Definition settled {A} (m : M A) (w : widget) : widget :=
  match m w with
  | Ret _ w' => w'
  | Throw _ w' => w'
  | NonFinite => w
  end.

(** [_createInputWidgets]: a knob gets its range and enters the document;
    [knob lo hi] is laid out at 200 x 200. *)
Definition configured_knob (lo hi : Q) : widget :=
  settled (opt_assign "minValue" (VNumber lo) ;;
           opt_assign "maxValue" (VNumber hi))
          (createElement Knob 200 200).

Definition knob (lo hi : Q) : widget :=
  settled (connectedCallback (page 1)) (configured_knob lo hi).

Definition feedback : widget := knob 0 1.
Definition lpfreq : widget := knob 100 10000.

(** A knob over 0..100, 200 pixels wide, whose value the host set to 50. *)
Definition knob50 : widget := settled (set_value_public (VNumber 50)) (knob 0 100).


(** [_createResizeHandle] on a device of pixel ratio [k], for a window of
    400 x 200 CSS pixels. *)
Definition handle (k : Q) : widget :=
  settled (opt_assign "minWidth" (VNumber 400) ;;
           opt_assign "minHeight" (VNumber 200) ;;
           opt_assign "keepAspectRatio" (VBoolean true) ;;
           opt_assign "maxScale" (VNumber 2) ;;
           connectedCallback (page k))
          (createElement ResizeHandle 24 24).

(** The events a method has dispatched when it returns. *)
Definition emitted {A} (m : M A) (w : widget) : option (list event) :=
  match m w with
  | Ret _ w' => Some (dispatched w')
  | Throw _ _ => None
  | NonFinite => None
  end.

(** ** Quantities of a knob gesture *)

(** The accumulator after the steps [ms], starting from [ax]. *)
Fixpoint accumulate (ax : Q) (ms : list (Q * Q)) : Q :=
  match ms with
  | [] => ax
  | m :: ms' => accumulate (ax + (Qabs (fst m) - Qabs (snd m))) ms'
  end.

(** Each of the steps [ms] finds the accumulator below 3 in absolute
    value. *)
Fixpoint stays_unresolved (ax : Q) (ms : list (Q * Q)) : bool :=
  match ms with
  | [] => true
  | m :: ms' =>
      Qlt_bool (Qabs ax) 3 && stays_unresolved (ax + (Qabs (fst m) - Qabs (snd m))) ms'
  end.








(** ** Device events against the hooks *)

(** The movements between the successive points of a path that starts at
    ([x], [y]). *)
Fixpoint deltas (x y : Q) (path : list (Q * Q)) : list (Q * Q) :=
  match path with
  | [] => []
  | p :: path' => (fst p - x, snd p - y) :: deltas (fst p) (snd p) path'
  end.

(** The last point of a path that starts at ([x], [y]). *)
Fixpoint end_point (x y : Q) (path : list (Q * Q)) : Q * Q :=
  match path with
  | [] => (x, y)
  | p :: path' => end_point (fst p) (snd p) path'
  end.

(** A widget without its pointer bookkeeping and its event log. *)
Definition core (w : widget) : widget :=
  set_dispatched [] (set_prevClient VUndefined VUndefined w).

(** [w1] is [w2] up to the pointer bookkeeping and the control events of
    the log: the same properties otherwise and the same [input] events. *)
Definition follows (w1 w2 : widget) : Prop :=
  core w1 = core w2 /\ inputs (dispatched w1) = inputs (dispatched w2).

(** The pointer was last seen at ([x], [y]). *)
Definition at_point (x y : Q) (w : widget) : Prop :=
  _prevClientX w = VNumber x /\ _prevClientY w = VNumber y.

(** Two outcomes of the same kind, on widgets that follow each other, the
    first of which satisfies [P] if it is a return. *)
Definition outcomes_follow {A} (P : widget -> Prop) (r1 r2 : result A) : Prop :=
  match r1, r2 with
  | Ret a w1, Ret b w2 => a = b /\ follows w1 w2 /\ P w1
  | Throw e1 w1, Throw e2 w2 => e1 = e2 /\ follows w1 w2
  | NonFinite, NonFinite => True
  | _, _ => False
  end.

(** A method that cannot tell two such widgets apart and keeps [P]. *)
Definition respects {A} (P : widget -> Prop) (m : M A) : Prop :=
  forall w1 w2, follows w1 w2 -> P w1 -> outcomes_follow P (m w1) (m w2).

(** ** class CastelloRevUI: the knobs of the page and the host *)

(** A call made on the host. *)
Inductive host_call : Type :=
| SetParameterValue (index : Q) (v : value).

(** The page once [_createInputWidgets] has put the two knobs in place of
    the templates [p-feedback] and [p-lpfreq], and the calls made on the
    host so far, latest first. *)
Record CastelloRevUI : Type := mkUI {
  p_feedback : widget;
  p_lpfreq : widget;
  host : list host_call
}.

(** How a method of the page ends. *)
Inductive completion : Type :=
| Done (ui : CastelloRevUI)
| Raised (x : exn) (ui : CastelloRevUI)
| Astray.

(** The events dispatched on a widget between [before] and [after]. *)
Definition heard (before after : widget) : list event :=
  take (length (dispatched after) - length (dispatched before)) (dispatched after).

(** The listener [(ev) => this.setParameterValue(index, ev.target.value)]
    run on each [input] event heard. *)
Definition listener (index : Q) (before after : widget) : list host_call :=
  map (fun _ => SetParameterValue index (get_value after)) (inputs (heard before after)).

(** [case n:] of the switch on [index]. *)
Definition is_case (n : Q) (index : value) : bool :=
  match index with
  | VNumber q => Qeq_bool q n
  | _ => false
  end.

(** [parameterChanged(index, value)]. *)
Definition parameterChanged (index v : value) (ui : CastelloRevUI) : completion :=
  if is_case 0 index then
    match set_value_public v (p_feedback ui) with
    | Ret _ w' =>
        Done (mkUI w' (p_lpfreq ui) (listener 0 (p_feedback ui) w' ++ host ui))
    | Throw x w' =>
        Raised x (mkUI w' (p_lpfreq ui) (listener 0 (p_feedback ui) w' ++ host ui))
    | NonFinite => Astray
    end
  else if is_case 1 index then
    match set_value_public v (p_lpfreq ui) with
    | Ret _ w' =>
        Done (mkUI (p_feedback ui) w' (listener 1 (p_lpfreq ui) w' ++ host ui))
    | Throw x w' =>
        Raised x (mkUI (p_feedback ui) w' (listener 1 (p_lpfreq ui) w' ++ host ui))
    | NonFinite => Astray
    end
  else Done ui.

(** ** class CastelloReverbUI of [ui.js]: the persisted window size *)

(** The character [x]. *)
Definition letter_x : Ascii.ascii := Ascii.ascii_of_nat 120.

(** [s.split(c)] for a separator of one character. *)
Fixpoint split_on (c : Ascii.ascii) (s : string) : list string :=
  match s with
  | EmptyString => [EmptyString]
  | String a s' =>
      if Ascii.eqb a c then EmptyString :: split_on c s'
      else match split_on c s' with
           | h :: t => String a h :: t
           | [] => [String a EmptyString]
           end
  end.

(** How often [c] occurs in [s]. *)
Fixpoint occurrences (c : Ascii.ascii) (s : string) : nat :=
  match s with
  | EmptyString => 0
  | String a s' => (if Ascii.eqb a c then 1 else 0) + occurrences c s'
  end.

(** What [stateChanged] acts on: the [setSize] calls made on the host,
    latest first, and whether the body is visible. *)
Record window : Type := mkWindow {
  sizes : list (value * value);
  visible : bool
}.

Section StateChanged.

(** The platform's [parseInt]. *)
Variable parseInt : string -> value.

(** [stateChanged(key, value)]. *)
Definition stateChanged (key v : string) (win : window) : window :=
  if String.eqb key "ui_size" then
    let wh := split_on letter_x v in
    let win1 :=
      match wh with
      | [a; b] => mkWindow ((parseInt a, parseInt b) :: sizes win) (visible win)
      | _ => win
      end in
    mkWindow (sizes win1) true
  else win.

End StateChanged.

(** * Properties *)

(** ** Numbers *)

Lemma Qlt_bool_true (a b : Q) : Qlt_bool a b = true <-> a < b.
Proof.
  unfold Qlt_bool. rewrite negb_true_iff.
  split; intros H.
  - apply Qnot_le_lt. intros Hle. apply Qle_bool_iff in Hle. congruence.
  - destruct (Qle_bool b a) eqn:E; [|reflexivity].
    apply Qle_bool_iff in E. exfalso. apply (Qlt_not_le _ _ H E).
Qed.

Lemma Qlt_bool_false (a b : Q) : Qlt_bool a b = false <-> b <= a.
Proof.
  unfold Qlt_bool. rewrite negb_false_iff. apply Qle_bool_iff.
Qed.

Lemma Qeq_bool_false (a b : Q) : Qeq_bool a b = false <-> ~ a == b.
Proof.
  split; intros H.
  - intros E. apply Qeq_bool_iff in E. congruence.
  - destruct (Qeq_bool a b) eqn:E; [|reflexivity].
    apply Qeq_bool_iff in E. contradiction.
Qed.

(** [Math.max(lo, Math.min(hi, v))] stays between [lo] and [hi]. *)
Lemma clamp_bounds (lo hi v : Q) : lo <= hi -> lo <= Qmax lo (Qmin hi v) <= hi.
Proof.
  intros H. split.
  - apply Q.le_max_l.
  - apply Q.max_lub; [exact H | apply Q.le_min_l].
Qed.

(** A value already between the bounds is returned as it is. *)
Lemma clamp_fixed (lo hi v : Q) : lo <= v <= hi -> Qmax lo (Qmin hi v) == v.
Proof.
  intros [H1 H2].
  rewrite (Q.min_r hi v) by exact H2.
  apply Q.max_r. exact H1.
Qed.

(** ** The option bag *)

Example opt_get_unset : opt_get ∅ "minValue" = VUndefined.
Proof. reflexivity. Qed.

Example opt_get_assigned :
  opt_get (<["minValue" := VNumber 5]> ∅) "minValue" = VNumber 5.
Proof. vm_compute. reflexivity. Qed.

Lemma opt_get_insert (o : gmap string value) (k : string) (v : value) :
  opt_get (<[k := v]> o) k = v.
Proof. unfold opt_get. rewrite lookup_insert_eq. reflexivity. Qed.

Lemma opt_get_insert_ne (o : gmap string value) (k k' : string) (v : value) :
  k ≠ k' -> opt_get (<[k := v]> o) k' = opt_get o k'.
Proof. intros H. unfold opt_get. rewrite lookup_insert_ne by exact H. reflexivity. Qed.

(** Reading an option of an existing bag neither throws nor writes. *)
Lemma _opt_read_some (k : string) (w : widget) (o : gmap string value) :
  _opt w = Some o -> _opt_read k w = Ret (opt_get o k) w.
Proof. intros H. unfold _opt_read. rewrite H. reflexivity. Qed.

Lemma _opt_write_some (k : string) (v : value) (w : widget) (o : gmap string value) :
  _opt w = Some o -> _opt_write k v w = Ret tt (set_opt (<[k := v]> o) w).
Proof. intros H. unfold _opt_write. rewrite H. reflexivity. Qed.

Lemma _opt_read_none (k : string) (w : widget) :
  _opt w = None -> _opt_read k w = Throw (undefined_has_no k) w.
Proof. intros H. unfold _opt_read. rewrite H. reflexivity. Qed.

(** ** The range model *)

Section RangeModel.

Variable w : widget.
Variable o : gmap string value.
Variables lo hi : Q.
Hypothesis bag : _opt w = Some o.
Hypothesis min_is : opt_get o "minValue" = VNumber lo.
Hypothesis max_is : opt_get o "maxValue" = VNumber hi.

Lemma _range_eq : _range w = Ret (hi - lo) w.
Proof.
  unfold _range, bind. rewrite !(_opt_read_some _ _ _ bag), min_is, max_is.
  reflexivity.
Qed.

Lemma _clamp_eq (v : Q) : _clamp v w = Ret (Qmax lo (Qmin hi v)) w.
Proof.
  unfold _clamp, bind. rewrite !(_opt_read_some _ _ _ bag), min_is, max_is.
  reflexivity.
Qed.


Lemma _normalize_eq (v : Q) :
  ~ hi - lo == 0 -> _normalize v w = Ret ((v - lo) / (hi - lo)) w.
Proof.
  intros H. unfold _normalize, bind. rewrite (_opt_read_some _ _ _ bag), min_is.
  cbn [number to_number]. rewrite _range_eq. unfold divide.
  apply Qeq_bool_false in H. rewrite H. reflexivity.
Qed.

End RangeModel.

(** C6. With [minValue <= maxValue], [_clamp(v)] returns a value between
    the two bounds, and clamping that value again returns it unchanged. *)
Theorem clamp_in_range_and_idempotent
  (w : widget) (o : gmap string value) (lo hi v : Q) :
  _opt w = Some o ->
  opt_get o "minValue" = VNumber lo ->
  opt_get o "maxValue" = VNumber hi ->
  lo <= hi ->
  exists c c',
    _clamp v w = Ret c w /\ lo <= c <= hi /\
    _clamp c w = Ret c' w /\ c' == c.
Proof.
  intros Hbag Hlo Hhi Hle.
  exists (Qmax lo (Qmin hi v)), (Qmax lo (Qmin hi (Qmax lo (Qmin hi v)))).
  rewrite !(_clamp_eq w o lo hi Hbag Hlo Hhi).
  pose proof (clamp_bounds lo hi v Hle) as Hb.
  repeat split; try apply Hb.
  apply clamp_fixed. exact Hb.
Qed.

Lemma clamp_in_range_and_idempotent_witness :
  exists c c',
    _clamp 20000 lpfreq = Ret c lpfreq /\ 100 <= c <= 10000 /\
    _clamp c lpfreq = Ret c' lpfreq /\ c' == c.
Proof.
  apply (clamp_in_range_and_idempotent lpfreq
           (<["maxValue" := VNumber 10000]> (<["minValue" := VNumber 100]> ∅))).
  - vm_compute. reflexivity.
  - vm_compute. reflexivity.
  - vm_compute. reflexivity.
  - unfold Qle. simpl. lia.
Defined.



(** ** The value model *)

(** Writing a value equal to the stored one changes nothing. *)
Lemma _setValue_same (v flag : value) (w : widget) :
  loose_eq (_value w) v = true -> _setValue v flag w = Ret tt w.
Proof. intros H. unfold _setValue. rewrite H. reflexivity. Qed.

(** The hook of a widget that is not a label-less knob returns. *)
Lemma _onSetValue_returns (v : value) (w : widget) :
  (cls w = Knob -> children w <> []) ->
  exists w',
    _onSetValue v w = Ret tt w' /\
    _value w' = _value w /\ dispatched w' = dispatched w /\
    cls w' = cls w /\ _opt w' = _opt w /\ fresh w' = fresh w /\
    _width w' = _width w /\ _height w' = _height w /\
    _aspectRatio w' = _aspectRatio w.
Proof.
  intros H. unfold _onSetValue.
  destruct (cls w) eqn:C; try (exists w; repeat split; congruence).
  destruct (children w) as [|c cs] eqn:K.
  - exfalso. apply H; reflexivity.
  - eexists. split; [reflexivity|]. repeat split; simpl; auto.
Qed.

(** Writing a value that differs from the stored one stores it and
    dispatches one [input] event that carries it. *)
Lemma _setValue_changed (v flag : value) (w : widget) :
  (cls w = Knob -> children w <> []) ->
  loose_eq (_value w) v = false ->
  exists w',
    _setValue v flag w = Ret tt w' /\
    _value w' = v /\ dispatched w' = Input v :: dispatched w /\
    cls w' = cls w /\ _opt w' = _opt w /\ fresh w' = fresh w /\
    _width w' = _width w /\ _height w' = _height w /\
    _aspectRatio w' = _aspectRatio w.
Proof.
  intros Hk Hne. unfold _setValue. rewrite Hne.
  unfold bind at 1. unfold assign at 1.
  unfold bind at 1.
  destruct (negb (is_false flag)).
  - unfold bind at 1. unfold read at 1.
    destruct (_onSetValue_returns (_value (set_value v w)) (set_value v w))
      as (w1 & E & Hv & Hd & Hc & Ho & Hf & Hw & Hh & Ha); [exact Hk|].
    rewrite E. unfold bind, read, dispatchEvent, assign.
    eexists. split; [reflexivity|].
    simpl. rewrite Hv, Hd, Hc, Ho, Hf, Hw, Hh, Ha. simpl. repeat split.
  - unfold ret, bind, read, dispatchEvent, assign.
    eexists. split; [reflexivity|]. simpl. repeat split.
Qed.

(** C4, as the code has it.  Writing through the [value] setter a value
    equal (under [==]) to the stored one returns with the widget unchanged,
    so no event is dispatched; writing a different value stores it and
    dispatches exactly one [input] event carrying it, on every widget whose
    [_onSetValue] hook returns: any widget but a knob without its label
    child. *)
Theorem value_write_notifies (w : widget) (v : value) :
  if loose_eq (_value w) v
  then set_value_public v w = Ret tt w
  else (cls w = Knob -> children w <> []) ->
       exists w',
         set_value_public v w = Ret tt w' /\
         get_value w' = v /\
         dispatched w' = Input v :: dispatched w.
Proof.
  destruct (loose_eq (_value w) v) eqn:H.
  - apply _setValue_same. exact H.
  - intros Hk.
    destruct (_setValue_changed v VUndefined w Hk H) as (w' & E & Hv & Hd & _).
    exists w'. auto.
Qed.

Lemma value_write_notifies_witness :
  set_value_public (VNumber 0) feedback = Ret tt feedback /\
  exists w',
    set_value_public (VNumber (1 # 2)) feedback = Ret tt w' /\
    get_value w' = VNumber (1 # 2) /\
    dispatched w' = Input (VNumber (1 # 2)) :: dispatched feedback.
Proof.
  split.
  - apply (value_write_notifies feedback (VNumber 0)).
  - apply (value_write_notifies feedback (VNumber (1 # 2))).
    vm_compute. discriminate.
Defined.

(** C4 as stated fails on a knob that has no label child yet: the write of
    a different value stores it, then [_onSetValue] throws and no [input]
    event is dispatched. *)
Lemma value_write_on_bare_knob :
  loose_eq (_value (createElement Knob 200 200)) (VNumber 5) = false /\
  set_value_public (VNumber 5) (createElement Knob 200 200)
  = Throw (undefined_takes_no "innerText")
      (set_value (VNumber 5) (createElement Knob 200 200)) /\
  dispatched (set_value (VNumber 5) (createElement Knob 200 200)) = [].
Proof. repeat split. Qed.

(** ** The knob *)

(** The start hook of a knob records the value and clears the axis and
    the drag distance. *)
Lemma knob_start (e : env) (ev : ControlEvent) (w : widget) :
  cls w = Knob ->
  _onControlEventStart e ev w
  = Ret tt (set_drag_d (VNumber 0) (set_axis (VNumber 0) (set_startValue (_value w) w))).
Proof. intros C. unfold _onControlEventStart. rewrite C. reflexivity. Qed.

(** While the axis is unresolved a step only feeds the accumulator. *)
Lemma knob_continue_unresolved (e : env) (mx my ax : Q) (w : widget) :
  cls w = Knob ->
  _axis w = VNumber ax ->
  Qabs ax < 3 ->
  _onControlEventContinue e (movement mx my) w
  = Ret tt (set_axis (VNumber (ax + (Qabs mx - Qabs my))) w).
Proof.
  intros C A H. unfold _onControlEventContinue. rewrite C.
  unfold Knob__onControlEventContinue, bind, read. rewrite A.
  cbn [number to_number]. apply Qlt_bool_true in H. rewrite H.
  reflexivity.
Qed.

(** Once resolved with a positive accumulator the step adds [movementX] to
    the drag distance and writes the clamped value scaled by the width. *)
Lemma knob_continue_horizontal
  (e : env) (mx my ax d sv lo hi : Q) (o : gmap string value) (w : widget) :
  cls w = Knob ->
  _axis w = VNumber ax ->
  3 <= Qabs ax ->
  0 < ax ->
  _drag_d w = VNumber d ->
  _startValue w = VNumber sv ->
  _opt w = Some o ->
  opt_get o "minValue" = VNumber lo ->
  opt_get o "maxValue" = VNumber hi ->
  ~ clientWidth w == 0 ->
  _onControlEventContinue e (movement mx my) w
  = _setValue
      (VNumber (Qmax lo (Qmin hi (sv + (hi - lo) * (d + mx) / clientWidth w))))
      VUndefined (set_drag_d (VNumber (d + mx)) w).
Proof.
  intros C A H3 Hpos D S B L U Hcw.
  unfold _onControlEventContinue. rewrite C.
  unfold Knob__onControlEventContinue. unfold bind at 1. unfold read at 1.
  rewrite A. unfold bind at 1. cbn [number to_number].
  apply Qlt_bool_false in H3. rewrite H3.
  apply Qlt_bool_true in Hpos. rewrite Hpos.
  unfold bind at 1. unfold bind at 1. unfold bind at 1. unfold read at 1.
  rewrite D. unfold bind at 1. cbn [number to_number movement movementX].
  unfold bind at 1. cbn [number to_number]. unfold assign at 1.
  unfold bind at 1.
  rewrite (_range_eq (set_drag_d (VNumber (d + mx)) w) o lo hi B L U).
  unfold bind at 1. unfold read at 1. cbn [_drag_d set_drag_d].
  unfold bind at 1. cbn [number to_number].
  unfold bind at 1. unfold read at 1. cbn [clientWidth set_drag_d].
  unfold divide. apply Qeq_bool_false in Hcw. rewrite Hcw.
  unfold bind at 1. unfold read at 1. cbn [_startValue set_drag_d]. rewrite S.
  unfold bind at 1. cbn [number to_number].
  unfold bind at 1.
  rewrite (_clamp_eq (set_drag_d (VNumber (d + mx)) w) o lo hi B L U).
  reflexivity.
Qed.


(** C7. On any knob, a start followed by five steps of movement (+1, +1)
    returns with the value and the dispatched events as they were: each
    step adds |1| - |1| = 0 to the accumulator, which stays at 0, below the
    threshold of 3, so no step reaches the value write. *)
Theorem knob_diagonal_steps_never_lock (e : env) (w : widget) :
  cls w = Knob ->
  exists w',
    (_onControlEventStart e (phase "controlstart") ;;
     continues e (repeat (movement 1 1) 5)) w = Ret tt w' /\
    get_value w' = get_value w /\
    dispatched w' = dispatched w /\
    _axis w' = VNumber 0.
Proof.
  intros C. destruct w. simpl in C. subst cls0.
  eexists. split; [vm_compute; reflexivity|].
  repeat split.
Qed.

Lemma knob_diagonal_steps_never_lock_witness :
  exists w',
    (_onControlEventStart (page 1) (phase "controlstart") ;;
     continues (page 1) (repeat (movement 1 1) 5)) lpfreq = Ret tt w' /\
    get_value w' = get_value lpfreq /\
    dispatched w' = dispatched lpfreq /\
    _axis w' = VNumber 0.
Proof.
  apply (knob_diagonal_steps_never_lock (page 1) lpfreq).
  reflexivity.
Defined.

(** C1, as the code has it.  On a knob with [minValue] 0, [maxValue] 100,
    width 200 and value 50, a gesture of two steps of movement (+5, 0)
    ends with the value 52.5 = 50 + 100 * 5 / 200 and one [input] event:
    the first step only feeds the accumulator (0 to 5), its movement is not
    added to the drag distance, and the second step moves the value. *)
Theorem knob_two_horizontal_steps (e : env) (w : widget) (o : gmap string value) :
  cls w = Knob ->
  _opt w = Some o ->
  opt_get o "minValue" = VNumber 0 ->
  opt_get o "maxValue" = VNumber 100 ->
  clientWidth w = 200 ->
  _value w = VNumber 50 ->
  children w <> [] ->
  exists w' q,
    gesture e [movement 5 0; movement 5 0] w = Ret tt w' /\
    get_value w' = VNumber q /\
    q == 105 # 2 /\
    dispatched w' = Input (VNumber q) :: dispatched w.
Proof.
  intros C B L U W V K.
  unfold gesture. cbn [continues].
  unfold bind at 1. rewrite (knob_start e _ w C).
  unfold bind at 1. unfold bind at 1.
  set (w1 := set_drag_d (VNumber 0) (set_axis (VNumber 0) (set_startValue (_value w) w))).
  rewrite (knob_continue_unresolved e 5 0 0 w1 C eq_refl)
    by (vm_compute; reflexivity).
  set (w2 := set_axis (VNumber (0 + (Qabs 5 - Qabs 0))) w1).
  unfold bind at 1.
  rewrite (knob_continue_horizontal e 5 0 (0 + (Qabs 5 - Qabs 0)) 0 50 0 100 o w2);
    try reflexivity; try assumption.
  all: cycle 1.
  - vm_compute. discriminate.
  - change (clientWidth w2) with (clientWidth w). rewrite W. vm_compute. discriminate.
  - change (clientWidth w2) with (clientWidth w). rewrite W.
    set (q := Qmax 0 (Qmin 100 (50 + (100 - 0) * (0 + 5) / 200))).
    destruct (_setValue_changed (VNumber q) VUndefined (set_drag_d (VNumber (0 + 5)) w2))
      as (w' & E & Hv & Hd & _).
    + intros _. exact K.
    + change (_value (set_drag_d (VNumber (0 + 5)) w2)) with (_value w).
      rewrite V. vm_compute. reflexivity.
    + rewrite E. exists w', q.
      split; [reflexivity|]. split; [exact Hv|]. split.
      * vm_compute. reflexivity.
      * rewrite Hd. reflexivity.
Qed.

Lemma knob_two_horizontal_steps_witness :
  exists w' q,
    gesture (page 1) [movement 5 0; movement 5 0] knob50 = Ret tt w' /\
    get_value w' = VNumber q /\
    q == 105 # 2 /\
    dispatched w' = Input (VNumber q) :: dispatched knob50.
Proof.
  apply (knob_two_horizontal_steps (page 1) knob50
           (<["maxValue" := VNumber 100]> (<["minValue" := VNumber 0]> ∅))).
  - reflexivity.
  - vm_compute. reflexivity.
  - vm_compute. reflexivity.
  - vm_compute. reflexivity.
  - reflexivity.
  - reflexivity.
  - vm_compute. discriminate.
Defined.

(** C1 as stated fails: on that knob the gesture ends with the value
    10500/200 = 52.5, which is not 55. *)
Lemma knob_two_horizontal_steps_not_55 :
  cls knob50 = Knob /\
  option_map (fun o => (opt_get o "minValue", opt_get o "maxValue")) (_opt knob50)
  = Some (VNumber 0, VNumber 100) /\
  clientWidth knob50 = 200 /\
  get_value knob50 = VNumber 50 /\
  (exists w',
     gesture (page 1) [movement 5 0; movement 5 0] knob50 = Ret tt w' /\
     get_value w' = VNumber (10500 # 200)) /\
  ~ 10500 # 200 == 55.
Proof.
  split; [reflexivity|]. split; [vm_compute; reflexivity|].
  split; [reflexivity|]. split; [reflexivity|]. split.
  - eexists. split; [vm_compute; reflexivity|]. reflexivity.
  - vm_compute. discriminate.
Qed.

(** ** Registration *)

Module RegistrationFacts.
Import Registration.

(** Without a tag on the way up, the getter of [Widget] runs and names the
    receiver. *)
Lemma getter_without_tag (c receiver : decl) :
  provides_tag c = false ->
  getter c receiver
  = inl (TypeError ("_unqualifiedNodeName not implemented for " +:+ name receiver)).
Proof.
  induction c as [|n tag super IH]; intros H.
  - reflexivity.
  - destruct tag as [t|]; simpl in *.
    + discriminate.
    + apply IH. exact H.
Qed.




(** The classes of the file: the three abstract ones fail to register, the
    two widgets of the load script register in turn. *)
Example abstract_classes_fail :
  _staticInit _ define_once InputWidget []
  = inl (TypeError "_unqualifiedNodeName not implemented for InputWidget") /\
  _staticInit _ define_once RangeInputWidget []
  = inl (TypeError "_unqualifiedNodeName not implemented for RangeInputWidget") /\
  _staticInit _ define_once TouchAndMouseControllableWidget []
  = inl (TypeError "_unqualifiedNodeName not implemented for TouchAndMouseControllableWidget").
Proof. repeat split. Qed.

Example load_script :
  forEach_staticInit _ define_once [ResizeHandle; Knob] []
  = inr [("a-resize-handle", ResizeHandle); ("a-knob", Knob)].
Proof. vm_compute. reflexivity. Qed.

End RegistrationFacts.

(** ** Initialization *)

Lemma InputWidget_init_eq (w : widget) :
  InputWidget__instanceInit w
  = Ret tt (set_value (VNumber 0) (set_listeners (S (listeners w)) w)).
Proof. reflexivity. Qed.

(** With a bag, the range widget fills in its two options and returns. *)
Lemma RangeInputWidget_init_returns (w : widget) (o : gmap string value) :
  _opt w = Some o ->
  RangeInputWidget__instanceInit w
  = Ret tt (set_opt (range_defaults o)
              (set_value (VNumber 0) (set_listeners (S (listeners w)) w))).
Proof.
  intros H. unfold RangeInputWidget__instanceInit.
  unfold bind at 1. rewrite InputWidget_init_eq.
  set (w0 := set_value (VNumber 0) (set_listeners (S (listeners w)) w)).
  unfold bind at 1. unfold bind at 1.
  rewrite (_opt_read_some "minValue" w0 o H).
  rewrite (_opt_write_some "minValue" _ w0 o H).
  unfold bind.
  rewrite (_opt_read_some "maxValue" (set_opt _ w0) _ eq_refl).
  rewrite (_opt_write_some "maxValue" _ (set_opt _ w0) _ eq_refl).
  reflexivity.
Qed.

(** Without a bag it throws at the first option read, after the value was
    set. *)
Lemma RangeInputWidget_init_throws (w : widget) :
  _opt w = None ->
  RangeInputWidget__instanceInit w
  = Throw (undefined_has_no "minValue")
      (set_value (VNumber 0) (set_listeners (S (listeners w)) w)).
Proof.
  intros H. unfold RangeInputWidget__instanceInit.
  unfold bind at 1. rewrite InputWidget_init_eq.
  set (w0 := set_value (VNumber 0) (set_listeners (S (listeners w)) w)).
  unfold bind. rewrite (_opt_read_none "minValue" w0 H). reflexivity.
Qed.

Lemma Knob_init_returns (w : widget) (o : gmap string value) :
  _opt w = Some o ->
  Knob__instanceInit w
  = Ret tt (set_children (children w ++ [Blank])
              (set_opt (range_defaults o)
                 (set_value (VNumber 0) (set_listeners (S (listeners w)) w)))).
Proof.
  intros H. unfold Knob__instanceInit, bind.
  rewrite (RangeInputWidget_init_returns w o H). reflexivity.
Qed.

Lemma Knob_init_throws (w : widget) :
  _opt w = None ->
  Knob__instanceInit w
  = Throw (undefined_has_no "minValue")
      (set_value (VNumber 0) (set_listeners (S (listeners w)) w)).
Proof.
  intros H. unfold Knob__instanceInit, bind.
  rewrite (RangeInputWidget_init_throws w H). reflexivity.
Qed.

(** What the defaults do to the two options. *)
Lemma range_defaults_minValue (o : gmap string value) :
  opt_get (range_defaults o) "minValue" = js_or (opt_get o "minValue") (VNumber 0).
Proof.
  unfold range_defaults.
  rewrite opt_get_insert_ne by discriminate. apply opt_get_insert.
Qed.

Lemma range_defaults_maxValue (o : gmap string value) :
  opt_get (range_defaults o) "maxValue" = js_or (opt_get o "maxValue") (VNumber 1).
Proof.
  unfold range_defaults. rewrite opt_get_insert.
  rewrite opt_get_insert_ne by discriminate. reflexivity.
Qed.

(** An unset option takes its default; an explicit number other than zero
    is kept. *)
Lemma js_or_unset (d : value) : js_or VUndefined d = d.
Proof. reflexivity. Qed.

Lemma js_or_nonzero (q : Q) (d : value) : ~ q == 0 -> js_or (VNumber q) d = VNumber q.
Proof.
  intros H. unfold js_or. simpl. apply Qeq_bool_false in H. rewrite H. reflexivity.
Qed.

(** An explicit zero is taken for unset and gives way to the default. *)
Lemma js_or_zero (q : Q) (d : value) : q == 0 -> js_or (VNumber q) d = d.
Proof.
  intros H. unfold js_or. simpl. apply Qeq_bool_iff in H. rewrite H. reflexivity.
Qed.

(** C3, on the code: a knob given [minValue] -60 and an explicit
    [maxValue] 0 comes out of its initialization with [maxValue] 1, the
    default having replaced the explicit zero. *)
Theorem explicit_zero_maxValue_replaced :
  option_map (fun o => (opt_get o "minValue", opt_get o "maxValue"))
             (_opt (knob (-60) 0))
  = Some (VNumber (-60), VNumber 1).
Proof. vm_compute. reflexivity. Qed.

(** The rest of C3 holds: unset options take the defaults 0 and 1, an
    explicit non-zero number is kept, and an explicit [minValue] 0 reads 0
    afterwards. *)
Lemma range_options_after_init (w : widget) (o : gmap string value) :
  _opt w = Some o ->
  exists w' o',
    RangeInputWidget__instanceInit w = Ret tt w' /\ _opt w' = Some o' /\
    (opt_get o "minValue" = VUndefined -> opt_get o' "minValue" = VNumber 0) /\
    (opt_get o "maxValue" = VUndefined -> opt_get o' "maxValue" = VNumber 1) /\
    (forall q, opt_get o "minValue" = VNumber q -> exists q',
          opt_get o' "minValue" = VNumber q' /\ q' == q) /\
    (forall q, opt_get o "maxValue" = VNumber q -> ~ q == 0 ->
          opt_get o' "maxValue" = VNumber q).
Proof.
  intros H. exists (set_opt (range_defaults o)
              (set_value (VNumber 0) (set_listeners (S (listeners w)) w))).
  exists (range_defaults o).
  split; [apply RangeInputWidget_init_returns; exact H|].
  split; [reflexivity|].
  rewrite range_defaults_minValue, range_defaults_maxValue.
  split; [intros ->; reflexivity|].
  split; [intros ->; reflexivity|].
  split.
  - intros q ->. destruct (Qeq_bool q 0) eqn:E.
    + exists 0. rewrite js_or_zero by (apply Qeq_bool_iff; exact E).
      split; [reflexivity|]. apply Qeq_bool_iff in E. symmetry. exact E.
    + exists q. rewrite js_or_nonzero by (apply Qeq_bool_false; exact E).
      split; reflexivity.
  - intros q -> Hq. apply js_or_nonzero. exact Hq.
Qed.

(** ** Invariants along a method *)

Section Triples.

Variables I E : widget -> Prop.

Lemma triple_ret {A} (a : A) : triple I E (ret a).
Proof. intros w H. exact H. Qed.

Lemma triple_bind {A B} (m : M A) (k : A -> M B) :
  triple I E m -> (forall a, triple I E (k a)) -> triple I E (bind m k).
Proof.
  intros Hm Hk w H. unfold bind. specialize (Hm w H).
  destruct (m w) as [a w'| |]; auto. apply Hk. exact Hm.
Qed.

Lemma triple_read {A} (f : widget -> A) : triple I E (read f).
Proof. intros w H. exact H. Qed.

Lemma triple_number (v : value) : triple I E (number v).
Proof. intros w H. unfold number. destruct (to_number v); auto. Qed.

Lemma triple_divide (a b : Q) : triple I E (divide a b).
Proof. intros w H. unfold divide. destruct (Qeq_bool b 0); auto. Qed.

Lemma triple_assign (f : widget -> widget) :
  (forall w, I w -> I (f w)) -> triple I E (assign f).
Proof. intros Hf w H. apply Hf. exact H. Qed.

Lemma triple_opt_read (k : string) :
  (forall w, I w -> _opt w = None -> E w) -> triple I E (_opt_read k).
Proof.
  intros HE w H. unfold _opt_read. destruct (_opt w) eqn:O; auto.
Qed.

Lemma triple_opt_write (k : string) (v : value) :
  (forall w, I w -> _opt w = None -> E w) ->
  (forall w o, I w -> I (set_opt o w)) ->
  triple I E (_opt_write k v).
Proof.
  intros HE HI w H. unfold _opt_write. destruct (_opt w) eqn:O; auto.
Qed.

End Triples.

(** What [ResizeHandle._instanceInit] does after [super._instanceInit()]
    keeps an invariant that ignores the bag, the aspect ratio and the
    size. *)
Lemma ResizeHandle_init_triple (I E : widget -> Prop) (e : env) (w : widget) :
  (forall w, I w -> _opt w = None -> E w) ->
  (forall w o, I w -> I (set_opt o w)) ->
  (forall w v, I w -> I (set_aspectRatio v w)) ->
  (forall w a b, I w -> I (set_size a b w)) ->
  I (set_value (VNumber 0) (set_listeners (S (listeners w)) w)) ->
  match ResizeHandle__instanceInit e w with
  | Ret _ w' => I w'
  | Throw _ w' => E w'
  | NonFinite => True
  end.
Proof.
  intros HE Ho Ha Hs H. unfold ResizeHandle__instanceInit.
  unfold bind at 1. rewrite InputWidget_init_eq.
  set (w0 := set_value (VNumber 0) (set_listeners (S (listeners w)) w)) in *.
  lazymatch goal with
  | |- match ?m w0 with _ => _ end => cut (triple I E m); [intros T; exact (T w0 H)|]
  end.
  repeat first
    [ apply triple_bind; [|intros ?]
    | apply triple_opt_read; exact HE
    | apply triple_opt_write; [exact HE | exact Ho]
    | apply triple_number
    | apply triple_divide
    | apply triple_assign; intros; auto
    | match goal with |- triple _ _ (if ?b then _ else _) => destruct b end ].
Qed.

(** C10. On a widget of an input class, [_instanceInit] leaves the value
    at 0: when it returns, and also when it throws, which it does only for
    want of an option bag; only the resize handle can leave the rationals.
    A range widget or knob configured with a positive [minValue] returns
    from it with that [minValue] kept and the value 0 below it: nothing
    clamps the initial value. *)
Theorem initial_value_is_zero (e : env) (w : widget) :
  is_input_class (cls w) = true ->
  match _instanceInit e w with
  | Ret _ w' => get_value w' = VNumber 0
  | Throw _ w' => get_value w' = VNumber 0 /\ _opt w = None
  | NonFinite => cls w = ResizeHandle
  end /\
  forall o lo,
    cls w = RangeInputWidget \/ cls w = Knob ->
    _opt w = Some o ->
    opt_get o "minValue" = VNumber lo ->
    0 < lo ->
    exists w' o',
      _instanceInit e w = Ret tt w' /\
      get_value w' = VNumber 0 /\
      _opt w' = Some o' /\
      opt_get o' "minValue" = VNumber lo.
Proof.
  intros C. split.
  - unfold _instanceInit. destruct (cls w) eqn:K; try discriminate.
    + reflexivity.
    + destruct (_opt w) as [o|] eqn:O.
      * rewrite (RangeInputWidget_init_returns w o O). reflexivity.
      * rewrite (RangeInputWidget_init_throws w O). split; reflexivity.
    + pose proof (ResizeHandle_init_triple
                    (fun w' => _value w' = VNumber 0 /\ (_opt w' = None -> _opt w = None))
                    (fun w' => _value w' = VNumber 0 /\ _opt w = None) e w) as T.
      destruct (ResizeHandle__instanceInit e w) as [a w'|x w'|].
      * apply T; try (intros; tauto); intros ? ? [? ?]; split; [assumption|discriminate].
      * apply T; try (intros; tauto); intros ? ? [? ?]; split; [assumption|discriminate].
      * reflexivity.
    + destruct (_opt w) as [o|] eqn:O.
      * rewrite (Knob_init_returns w o O). reflexivity.
      * rewrite (Knob_init_throws w O). split; reflexivity.
  - intros o lo K O L Hlo. unfold _instanceInit.
    assert (Hm : opt_get (range_defaults o) "minValue" = VNumber lo).
    { rewrite range_defaults_minValue, L. apply js_or_nonzero. intros Z. lra. }
    destruct K as [K|K]; rewrite K.
    + rewrite (RangeInputWidget_init_returns w o O).
      eexists. exists (range_defaults o). repeat split. exact Hm.
    + rewrite (Knob_init_returns w o O).
      eexists. exists (range_defaults o). repeat split. exact Hm.
Qed.

Lemma initial_value_is_zero_witness :
  exists w' o',
    _instanceInit (page 1) (configured_knob 100 10000) = Ret tt w' /\
    get_value w' = VNumber 0 /\
    _opt w' = Some o' /\
    opt_get o' "minValue" = VNumber 100.
Proof.
  destruct (initial_value_is_zero (page 1) (configured_knob 100 10000) eq_refl)
    as [_ H].
  apply (H (<["maxValue" := VNumber 10000]> (<["minValue" := VNumber 100]> ∅)) 100).
  - right. reflexivity.
  - vm_compute. reflexivity.
  - vm_compute. reflexivity.
  - unfold Qlt. simpl. lia.
Defined.

(** The cutoff knob of the page starts at 0, below its range 100..10000,
    and clamping would have moved it to 100. *)
Example lpfreq_starts_below_range :
  get_value lpfreq = VNumber 0 /\
  option_map (fun o => (opt_get o "minValue", opt_get o "maxValue")) (_opt lpfreq)
  = Some (VNumber 100, VNumber 10000) /\
  _clamp 0 lpfreq = Ret 100 lpfreq.
Proof. repeat split; vm_compute; reflexivity. Qed.

(** ** The lifecycle *)

Section LifecycleFacts.

Variable hook : M unit.




(** A hook that throws leaves the flag as the hook left it. *)
Lemma connected_throws (w w1 : widget) (x : exn) :
  _instanceInitialized w = false ->
  hook w = Throw x w1 ->
  connectedCallback_with hook w = Throw x w1.
Proof.
  intros H R. unfold connectedCallback_with, bind. rewrite H, R. reflexivity.
Qed.


End LifecycleFacts.


(** The listeners show it: after three connections the configured knob
    carries one set of them. *)
Example configured_knob_connected_thrice :
  option_map (fun w => (_instanceInitialized w, listeners w))
             (connections (page 1) 3 (configured_knob 0 1))
  = Some (true, 1%nat).
Proof. vm_compute. reflexivity. Qed.


(** ** The resize handle *)

Section ResizeStep.

Variable e : env.
Variable w : widget.
Variable o : gmap string value.
Variables minW maxW minH maxH r cw ch : Q.
Hypothesis is_handle : cls w = ResizeHandle.
Hypothesis bag : _opt w = Some o.
Hypothesis minW_is : opt_get o "minWidth" = VNumber minW.
Hypothesis maxW_is : opt_get o "maxWidth" = VNumber maxW.
Hypothesis minH_is : opt_get o "minHeight" = VNumber minH.
Hypothesis maxH_is : opt_get o "maxHeight" = VNumber maxH.
Hypothesis ratio_is : _aspectRatio w = VNumber r.
Hypothesis width_is : _width w = VNumber cw.
Hypothesis height_is : _height w = VNumber ch.
Hypothesis ratio_ok : truthy (opt_get o "keepAspectRatio") = true -> ~ r == 0.


End ResizeStep.


(** X12. With [minWidth], [minHeight] and [maxScale] given as numbers other
    than zero, the initialization of the resize handle returns: the maxima
    are [maxScale] times the minima and the ratio is that of the minima. *)
Lemma ResizeHandle_init_maxScale
  (e : env) (w : widget) (o : gmap string value) (mw mh s : Q) :
  _opt w = Some o ->
  opt_get o "minWidth" = VNumber mw ->
  opt_get o "minHeight" = VNumber mh ->
  opt_get o "maxScale" = VNumber s ->
  ~ mw == 0 -> ~ mh == 0 -> ~ s == 0 ->
  exists w' o',
    ResizeHandle__instanceInit e w = Ret tt w' /\
    cls w' = cls w /\ _opt w' = Some o' /\
    opt_get o' "minWidth" = VNumber mw /\
    opt_get o' "maxWidth" = VNumber (s * mw) /\
    opt_get o' "minHeight" = VNumber mh /\
    opt_get o' "maxHeight" = VNumber (s * mh) /\
    opt_get o' "keepAspectRatio"
    = VBoolean (if is_false (opt_get o "keepAspectRatio") then false else true) /\
    _aspectRatio w' = VNumber (mw / mh) /\
    _width w' = VNumber 0 /\ _height w' = VNumber 0.
Proof.
  intros B Lw Lh Ls Hw Hh Hs.
  unfold ResizeHandle__instanceInit.
  unfold bind at 1. rewrite InputWidget_init_eq.
  set (w0 := set_value (VNumber 0) (set_listeners (S (listeners w)) w)).
  assert (B0 : _opt w0 = Some o) by exact B.
  unfold bind at 1. unfold bind at 1.
  rewrite (_opt_read_some _ _ _ B0), Lw, (js_or_nonzero mw _ Hw).
  rewrite (_opt_write_some _ _ _ _ B0).
  set (o1 := <["minWidth" := VNumber mw]> o).
  set (w1 := set_opt o1 w0).
  unfold bind at 1. unfold bind at 1.
  rewrite (_opt_read_some _ w1 o1 eq_refl).
  replace (opt_get o1 "minHeight") with (VNumber mh)
    by (subst o1; rewrite opt_get_insert_ne by discriminate; congruence).
  rewrite (js_or_nonzero mh _ Hh).
  rewrite (_opt_write_some _ _ w1 o1 eq_refl).
  set (o2 := <["minHeight" := VNumber mh]> o1).
  set (w2 := set_opt o2 w1).
  assert (E2s : opt_get o2 "maxScale" = VNumber s).
  { subst o2 o1. rewrite !opt_get_insert_ne by discriminate. exact Ls. }
  assert (E2w : opt_get o2 "minWidth" = VNumber mw).
  { subst o2 o1. rewrite opt_get_insert_ne by discriminate. apply opt_get_insert. }
  assert (E2h : opt_get o2 "minHeight" = VNumber mh).
  { subst o2. apply opt_get_insert. }
  unfold bind at 1. unfold bind at 1.
  rewrite (_opt_read_some _ w2 o2 eq_refl), E2s.
  cbn [truthy]. rewrite (proj2 (Qeq_bool_false s 0) Hs). cbn [negb].
  unfold bind at 1. unfold bind at 1.
  rewrite (_opt_read_some _ w2 o2 eq_refl), E2s.
  unfold bind at 1. rewrite (_opt_read_some _ w2 o2 eq_refl), E2w.
  unfold bind at 1. cbn [number to_number].
  unfold bind at 1. cbn [number to_number].
  rewrite (_opt_write_some _ _ w2 o2 eq_refl).
  set (o3 := <["maxWidth" := VNumber (s * mw)]> o2).
  set (w3 := set_opt o3 w2).
  unfold bind at 1.
  rewrite (_opt_read_some _ w3 o3 eq_refl).
  replace (opt_get o3 "maxScale") with (VNumber s)
    by (subst o3; rewrite opt_get_insert_ne by discriminate; congruence).
  unfold bind at 1. rewrite (_opt_read_some _ w3 o3 eq_refl).
  replace (opt_get o3 "minHeight") with (VNumber mh)
    by (subst o3; rewrite opt_get_insert_ne by discriminate; congruence).
  unfold bind at 1. cbn [number to_number].
  unfold bind at 1. cbn [number to_number].
  rewrite (_opt_write_some _ _ w3 o3 eq_refl).
  set (o4 := <["maxHeight" := VNumber (s * mh)]> o3).
  set (w4 := set_opt o4 w3).
  unfold bind at 1. unfold bind at 1.
  rewrite (_opt_read_some _ w4 o4 eq_refl).
  rewrite (_opt_write_some _ _ w4 o4 eq_refl).
  set (o5 := <["keepAspectRatio" := _]> o4).
  set (w5 := set_opt o5 w4).
  assert (E5w : opt_get o5 "minWidth" = VNumber mw).
  { subst o5 o4 o3. rewrite !opt_get_insert_ne by discriminate. exact E2w. }
  assert (E5h : opt_get o5 "minHeight" = VNumber mh).
  { subst o5 o4 o3. rewrite !opt_get_insert_ne by discriminate. exact E2h. }
  unfold bind at 1. unfold bind at 1.
  rewrite (_opt_read_some _ w5 o5 eq_refl), E5w.
  unfold bind at 1. rewrite (_opt_read_some _ w5 o5 eq_refl), E5h.
  unfold bind at 1. cbn [number to_number].
  unfold bind at 1. cbn [number to_number].
  unfold bind at 1. unfold divide.
  rewrite (proj2 (Qeq_bool_false mh 0) Hh).
  unfold assign.
  eexists. exists o5. split; [reflexivity|].
  split; [reflexivity|]. split; [reflexivity|].
  split; [exact E5w|].
  split.
  { subst o5 o4 o3. rewrite !opt_get_insert_ne by discriminate. apply opt_get_insert. }
  split; [exact E5h|].
  split.
  { subst o5 o4. rewrite opt_get_insert_ne by discriminate. apply opt_get_insert. }
  split.
  { subst o5. rewrite opt_get_insert.
    subst o4 o3 o2 o1. rewrite !opt_get_insert_ne by discriminate. reflexivity. }
  repeat split.
Qed.



(** Maxima that are [s] times positive minima, with [s] at least 1, are
    ordered and in the ratio of the minima. *)
Lemma scaled_bounds_consistent (mw mh s : Q) :
  0 < mw -> 0 < mh -> 1 <= s ->
  mw <= s * mw /\ mh <= s * mh /\
  0 < mw / mh /\ mw == mw / mh * mh /\ s * mw == mw / mh * (s * mh).
Proof.
  intros Hw Hh Hs.
  split; [nra|]. split; [nra|].
  split; [apply Qlt_shift_div_l; lra|].
  split; field; intros Z; lra.
Qed.

(** The step of the specification's example: from 400 x 200 under the
    ratio 2, a movement of (40, 0) gives 440 x 220. *)
Example resize_step_440_220 :
  emitted (gesture (page 1) (movements [(40, 0)])) (handle 1)
  = Some [Input (VSize 0 440 (88000 # 400))] /\ 88000 # 400 == 220.
Proof. split; vm_compute; reflexivity. Qed.


(** ** The pipeline from device events *)

(** The drag of C1 as the device reports it: down at (10, 10), moves to
    (15, 10) and (20, 10), release.  The knob ends at 52.5; one [input]
    event follows the one of the host's write. *)
Example knob_drag_from_device :
  option_map inputs
    (emitted (drag (page 1) (mkOriginalEvent (VBoolean false) (VBoolean false))
                10 10 [(15, 10); (20, 10)]) knob50)
  = Some [VNumber (10500 # 200); VNumber 50].
Proof. vm_compute. reflexivity. Qed.

(** The diagonal drag of C7 as the device reports it dispatches the control
    events of its seven phases and no [input] event. *)
Example knob_diagonal_drag_from_device :
  option_map (fun l => (length l, inputs l))
    (emitted (drag (page 1) (mkOriginalEvent (VBoolean false) (VBoolean false))
                10 10 [(11, 11); (12, 12); (13, 13); (14, 14); (15, 15)]) lpfreq)
  = Some (7%nat, []).
Proof. vm_compute. reflexivity. Qed.

(** The declarations of the widget classes: only the two concrete widgets
    carry a tag, and the static initialization of the resize handle stores
    its graphics after registering. *)
Example tags_of_the_classes (c : class) :
  Registration.provides_tag (declaration c)
  = match c with
    | ResizeHandle | Knob => true
    | _ => false
    end.
Proof. destruct c; reflexivity. Qed.

Example ResizeHandle_staticInit :
  Registration.ResizeHandle__staticInit ([], false)
  = inr ([("a-resize-handle", Registration.ResizeHandle)], true).
Proof. vm_compute. reflexivity. Qed.

(** * Further properties of the code *)

(** ** The option bag through its getter and setter *)



(** ** Initialization after configuration *)




(** ** Writing a value twice *)

Lemma loose_eq_refl (v : value) : loose_eq v v = true.
Proof.
  destruct v as [|b|q|r a b]; simpl.
  - reflexivity.
  - destruct b; reflexivity.
  - apply Qeq_bool_iff. reflexivity.
  - apply Nat.eqb_refl.
Qed.

(** A write that returns leaves a value equal to the one written. *)
Lemma _setValue_stores (v flag : value) (w w' : widget) :
  _setValue v flag w = Ret tt w' -> loose_eq (_value w') v = true.
Proof.
  unfold _setValue. destruct (loose_eq (_value w) v) eqn:L.
  - intros [= <-]. exact L.
  - unfold bind at 1. unfold assign at 1. unfold bind at 1.
    destruct (negb (is_false flag)).
    + unfold bind at 1. unfold read at 1. unfold _onSetValue.
      cbn [cls set_value children _value].
      destruct (cls w); try (intros [= <-]; apply loose_eq_refl).
      destruct (children w); [discriminate|].
      intros [= <-]. apply loose_eq_refl.
    + intros [= <-]. apply loose_eq_refl.
Qed.

(** X4. Writing the same value twice through the [value] setter is the
    same as writing it once, on every widget and for every value: the
    second write finds the stored value equal and returns at once, so it
    adds no event; if the first write throws, the second is not reached. *)
Theorem value_write_twice (v : value) (w : widget) :
  (set_value_public v ;; set_value_public v) w = set_value_public v w.
Proof.
  unfold bind. destruct (set_value_public v w) as [[] w1|x w1|] eqn:R;
    [|reflexivity|reflexivity].
  apply _setValue_stores in R.
  apply _setValue_same. exact R.
Qed.

(** ** The label of the knob *)



(** ** The range model, further *)



(** X7. With [maxValue > minValue], [_normalize] sends [minValue] to 0 and
    [maxValue] to 1 and keeps the order of its arguments, so that it maps
    the range into the interval from 0 to 1. *)
Theorem normalize_onto_unit_interval
  (w : widget) (o : gmap string value) (lo hi v1 v2 : Q) :
  _opt w = Some o ->
  opt_get o "minValue" = VNumber lo ->
  opt_get o "maxValue" = VNumber hi ->
  lo < hi ->
  v1 <= v2 ->
  exists n0 n1 a b,
    _normalize lo w = Ret n0 w /\ n0 == 0 /\
    _normalize hi w = Ret n1 w /\ n1 == 1 /\
    _normalize v1 w = Ret a w /\
    _normalize v2 w = Ret b w /\
    a <= b /\
    (lo <= v1 -> 0 <= a) /\ (v2 <= hi -> b <= 1).
Proof.
  intros B L U H Hv.
  assert (Hr : ~ hi - lo == 0) by (intros E; lra).
  assert (Hp : 0 < hi - lo) by lra.
  exists ((lo - lo) / (hi - lo)), ((hi - lo) / (hi - lo)),
         ((v1 - lo) / (hi - lo)), ((v2 - lo) / (hi - lo)).
  rewrite !(_normalize_eq w o lo hi B L U _ Hr).
  split; [reflexivity|]. split; [field; exact Hr|].
  split; [reflexivity|]. split; [field; exact Hr|].
  split; [reflexivity|]. split; [reflexivity|].
  split; [|split].
  - apply Qle_shift_div_l; [exact Hp|].
    assert (E : (v1 - lo) / (hi - lo) * (hi - lo) == v1 - lo) by (field; exact Hr).
    rewrite E. lra.
  - intros H1. apply Qle_shift_div_l; [exact Hp|]. lra.
  - intros H2. apply Qle_shift_div_r; [exact Hp|]. lra.
Qed.

Lemma normalize_onto_unit_interval_witness :
  exists n0 n1 a b,
    _normalize 100 lpfreq = Ret n0 lpfreq /\ n0 == 0 /\
    _normalize 10000 lpfreq = Ret n1 lpfreq /\ n1 == 1 /\
    _normalize 440 lpfreq = Ret a lpfreq /\
    _normalize 880 lpfreq = Ret b lpfreq /\
    a <= b /\
    (100 <= 440 -> 0 <= a) /\ (880 <= 10000 -> b <= 1).
Proof.
  apply (normalize_onto_unit_interval lpfreq
           (<["maxValue" := VNumber 10000]> (<["minValue" := VNumber 100]> ∅))
           100 10000 440 880).
  - vm_compute. reflexivity.
  - vm_compute. reflexivity.
  - vm_compute. reflexivity.
  - unfold Qlt. simpl. lia.
  - unfold Qle. simpl. lia.
Defined.

(** X8. What [_clamp] returns, case by case.  A value at or below
    [minValue] gives [minValue]; with ordered bounds one at or above
    [maxValue] gives [maxValue], and one in between is returned as it is;
    with [maxValue] below [minValue] every value gives [minValue]. *)
Theorem clamp_cases
  (w : widget) (o : gmap string value) (lo hi v : Q) :
  _opt w = Some o ->
  opt_get o "minValue" = VNumber lo ->
  opt_get o "maxValue" = VNumber hi ->
  exists c,
    _clamp v w = Ret c w /\
    (v <= lo -> c == lo) /\
    (lo <= hi -> hi <= v -> c == hi) /\
    (lo <= v <= hi -> c == v) /\
    (hi < lo -> c == lo).
Proof.
  intros B L U. exists (Qmax lo (Qmin hi v)).
  rewrite (_clamp_eq w o lo hi B L U).
  split; [reflexivity|].
  split; [|split; [|split]].
  - intros H2. apply Q.max_l.
    apply Q.min_le_iff. right. exact H2.
  - intros H1 H2. rewrite (Q.min_l hi v H2). apply Q.max_r. exact H1.
  - intros H. apply clamp_fixed. exact H.
  - intros H. apply Q.max_l.
    apply Q.min_le_iff. left. apply Qlt_le_weak. exact H.
Qed.

Lemma clamp_cases_witness :
  exists c,
    _clamp 50 lpfreq = Ret c lpfreq /\
    (50 <= 100 -> c == 100) /\
    (100 <= 10000 -> 10000 <= 50 -> c == 10000) /\
    (100 <= 50 <= 10000 -> c == 50) /\
    (10000 < 100 -> c == 100).
Proof.
  apply (clamp_cases lpfreq
           (<["maxValue" := VNumber 10000]> (<["minValue" := VNumber 100]> ∅))
           100 10000 50).
  - vm_compute. reflexivity.
  - vm_compute. reflexivity.
  - vm_compute. reflexivity.
Defined.

(** ** The knob, further *)

(** X9. While every step finds the accumulator below 3 in absolute value,
    the steps of a knob only feed the accumulator: they return with the
    value, the drag distance, the label and the dispatched events as they
    were, the step that carries the accumulator to 3 or beyond included. *)
Theorem knob_unresolved_steps
  (e : env) (ms : list (Q * Q)) (w : widget) (ax : Q) :
  cls w = Knob ->
  _axis w = VNumber ax ->
  stays_unresolved ax ms = true ->
  exists w',
    continues e (movements ms) w = Ret tt w' /\
    _axis w' = VNumber (accumulate ax ms) /\
    get_value w' = get_value w /\
    _drag_d w' = _drag_d w /\
    children w' = children w /\
    dispatched w' = dispatched w.
Proof.
  revert w ax. induction ms as [|[mx my] ms IH]; intros w ax C A S.
  - exists w. repeat split. exact A.
  - cbn [stays_unresolved fst snd] in S. apply andb_prop in S as [S1 S2].
    apply Qlt_bool_true in S1.
    cbn [movements map continues fst snd]. unfold bind at 1.
    rewrite (knob_continue_unresolved e mx my ax w C A S1).
    destruct (IH (set_axis (VNumber (ax + (Qabs mx - Qabs my))) w)
                 (ax + (Qabs mx - Qabs my)) C eq_refl S2)
      as (w' & R & A' & V' & D' & K' & L').
    exists w'. split; [exact R|]. repeat split; assumption.
Qed.

Lemma knob_unresolved_steps_witness :
  exists w',
    continues (page 1) (movements [(1, -1); (2, 1); (-4, 0)])
      (settled (_onControlEventStart (page 1) (phase "controlstart")) knob50)
    = Ret tt w' /\
    _axis w' = VNumber (accumulate 0 [(1, -1); (2, 1); (-4, 0)]) /\
    get_value w'
    = get_value (settled (_onControlEventStart (page 1) (phase "controlstart")) knob50) /\
    _drag_d w'
    = _drag_d (settled (_onControlEventStart (page 1) (phase "controlstart")) knob50) /\
    children w'
    = children (settled (_onControlEventStart (page 1) (phase "controlstart")) knob50) /\
    dispatched w'
    = dispatched (settled (_onControlEventStart (page 1) (phase "controlstart")) knob50).
Proof.
  apply (knob_unresolved_steps (page 1) [(1, -1); (2, 1); (-4, 0)]
           (settled (_onControlEventStart (page 1) (phase "controlstart")) knob50) 0).
  - vm_compute. reflexivity.
  - vm_compute. reflexivity.
  - vm_compute. reflexivity.
Defined.



Section LockedKnob.

Variable e : env.
Variable o : gmap string value.
Variables lo hi ax sv : Q.
Hypothesis min_is : opt_get o "minValue" = VNumber lo.
Hypothesis max_is : opt_get o "maxValue" = VNumber hi.
Hypothesis resolved : 3 <= Qabs ax.


End LockedKnob.






(** ** The resize handle, further *)

Lemma ResizeHandle_init_maxScale_witness :
  exists w' o',
    ResizeHandle__instanceInit (page 2)
      (set_opt (<["maxScale" := VNumber 2]>
                  (<["maxWidth" := VNumber 5000]>
                     (<["minHeight" := VNumber 200]>
                        (<["minWidth" := VNumber 400]> ∅))))
               (createElement ResizeHandle 24 24))
    = Ret tt w' /\
    cls w' = ResizeHandle /\ _opt w' = Some o' /\
    opt_get o' "minWidth" = VNumber 400 /\
    opt_get o' "maxWidth" = VNumber (2 * 400) /\
    opt_get o' "minHeight" = VNumber 200 /\
    opt_get o' "maxHeight" = VNumber (2 * 200) /\
    opt_get o' "keepAspectRatio" = VBoolean true /\
    _aspectRatio w' = VNumber (400 / 200) /\
    _width w' = VNumber 0 /\ _height w' = VNumber 0.
Proof.
  destruct (ResizeHandle_init_maxScale (page 2)
           (set_opt (<["maxScale" := VNumber 2]>
                       (<["maxWidth" := VNumber 5000]>
                          (<["minHeight" := VNumber 200]>
                             (<["minWidth" := VNumber 400]> ∅))))
                    (createElement ResizeHandle 24 24))
           (<["maxScale" := VNumber 2]>
              (<["maxWidth" := VNumber 5000]>
                 (<["minHeight" := VNumber 200]>
                    (<["minWidth" := VNumber 400]> ∅))))
           400 200 2)
    as (w' & o' & R & C & B & H1 & H2 & H3 & H4 & H5 & H6 & H7 & H8).
  - reflexivity.
  - vm_compute. reflexivity.
  - vm_compute. reflexivity.
  - vm_compute. reflexivity.
  - vm_compute. discriminate.
  - vm_compute. discriminate.
  - vm_compute. discriminate.
  - exists w', o'. repeat split; assumption.
Defined.

(** X13. Without a [maxScale], the initialization of a resize handle that
    has a bag fills every bound that is unset or zero: the minima from the
    size of the document body, the maxima from the screen; bounds given as
    other values are kept.  [keepAspectRatio] becomes a boolean, false
    only if it was exactly [false].  Where the resulting minima are
    numbers and the minimum height is not zero, it returns with their
    quotient as aspect ratio, the size at 0 x 0 and the value 0. *)
Theorem ResizeHandle_init_defaults
  (e : env) (w : widget) (o : gmap string value) (mw mh : Q) :
  _opt w = Some o ->
  truthy (opt_get o "maxScale") = false ->
  to_number (js_or (opt_get o "minWidth") (VNumber (body_clientWidth e))) = Some mw ->
  to_number (js_or (opt_get o "minHeight") (VNumber (body_clientHeight e))) = Some mh ->
  ~ mh == 0 ->
  exists w' o',
    ResizeHandle__instanceInit e w = Ret tt w' /\
    _opt w' = Some o' /\
    opt_get o' "minWidth" = js_or (opt_get o "minWidth") (VNumber (body_clientWidth e)) /\
    opt_get o' "minHeight" = js_or (opt_get o "minHeight") (VNumber (body_clientHeight e)) /\
    opt_get o' "maxWidth" = js_or (opt_get o "maxWidth") (VNumber (screen_width e)) /\
    opt_get o' "maxHeight" = js_or (opt_get o "maxHeight") (VNumber (screen_height e)) /\
    opt_get o' "keepAspectRatio"
    = VBoolean (if is_false (opt_get o "keepAspectRatio") then false else true) /\
    _aspectRatio w' = VNumber (mw / mh) /\
    _width w' = VNumber 0 /\ _height w' = VNumber 0 /\
    get_value w' = VNumber 0.
Proof.
  intros B Ts Nw Nh Hh.
  unfold ResizeHandle__instanceInit.
  unfold bind at 1. rewrite InputWidget_init_eq.
  set (w0 := set_value (VNumber 0) (set_listeners (S (listeners w)) w)).
  assert (B0 : _opt w0 = Some o) by exact B.
  unfold bind at 1. unfold bind at 1.
  rewrite (_opt_read_some _ _ _ B0), (_opt_write_some _ _ _ _ B0).
  set (o1 := <["minWidth" := _]> o).
  set (w1 := set_opt o1 w0).
  unfold bind at 1. unfold bind at 1.
  rewrite (_opt_read_some _ w1 o1 eq_refl), (_opt_write_some _ _ w1 o1 eq_refl).
  replace (opt_get o1 "minHeight") with (opt_get o "minHeight")
    by (subst o1; rewrite opt_get_insert_ne by discriminate; reflexivity).
  set (o2 := <["minHeight" := _]> o1).
  set (w2 := set_opt o2 w1).
  unfold bind at 1. unfold bind at 1.
  rewrite (_opt_read_some _ w2 o2 eq_refl).
  replace (opt_get o2 "maxScale") with (opt_get o "maxScale")
    by (subst o2 o1; rewrite !opt_get_insert_ne by discriminate; reflexivity).
  rewrite Ts.
  unfold bind at 1. unfold bind at 1.
  rewrite (_opt_read_some _ w2 o2 eq_refl), (_opt_write_some _ _ w2 o2 eq_refl).
  replace (opt_get o2 "maxWidth") with (opt_get o "maxWidth")
    by (subst o2 o1; rewrite !opt_get_insert_ne by discriminate; reflexivity).
  set (o3 := <["maxWidth" := _]> o2).
  set (w3 := set_opt o3 w2).
  unfold bind at 1.
  rewrite (_opt_read_some _ w3 o3 eq_refl), (_opt_write_some _ _ w3 o3 eq_refl).
  replace (opt_get o3 "maxHeight") with (opt_get o "maxHeight")
    by (subst o3 o2 o1; rewrite !opt_get_insert_ne by discriminate; reflexivity).
  set (o4 := <["maxHeight" := _]> o3).
  set (w4 := set_opt o4 w3).
  unfold bind at 1. unfold bind at 1.
  rewrite (_opt_read_some _ w4 o4 eq_refl), (_opt_write_some _ _ w4 o4 eq_refl).
  replace (opt_get o4 "keepAspectRatio") with (opt_get o "keepAspectRatio")
    by (subst o4 o3 o2 o1; rewrite !opt_get_insert_ne by discriminate; reflexivity).
  set (o5 := <["keepAspectRatio" := _]> o4).
  set (w5 := set_opt o5 w4).
  assert (E5w : opt_get o5 "minWidth"
                = js_or (opt_get o "minWidth") (VNumber (body_clientWidth e))).
  { subst o5 o4 o3 o2. rewrite !opt_get_insert_ne by discriminate.
    subst o1. apply opt_get_insert. }
  assert (E5h : opt_get o5 "minHeight"
                = js_or (opt_get o "minHeight") (VNumber (body_clientHeight e))).
  { subst o5 o4 o3. rewrite !opt_get_insert_ne by discriminate.
    subst o2. apply opt_get_insert. }
  unfold bind at 1. unfold bind at 1.
  rewrite (_opt_read_some _ w5 o5 eq_refl), E5w.
  unfold bind at 1. rewrite (_opt_read_some _ w5 o5 eq_refl), E5h.
  unfold bind at 1. unfold number at 1. rewrite Nw.
  unfold bind at 1. unfold number at 1. rewrite Nh.
  unfold bind at 1. unfold divide.
  rewrite (proj2 (Qeq_bool_false mh 0) Hh).
  unfold assign.
  eexists. exists o5. split; [reflexivity|].
  split; [reflexivity|].
  split; [exact E5w|]. split; [exact E5h|].
  split.
  { subst o5 o4. rewrite !opt_get_insert_ne by discriminate.
    subst o3. apply opt_get_insert. }
  split.
  { subst o5. rewrite opt_get_insert_ne by discriminate.
    subst o4. apply opt_get_insert. }
  split.
  { subst o5. apply opt_get_insert. }
  repeat split.
Qed.

Lemma ResizeHandle_init_defaults_witness :
  exists w' o',
    ResizeHandle__instanceInit (page 1)
      (set_opt (<["keepAspectRatio" := VNumber 0]> (<["maxWidth" := VNumber 0]> ∅))
               (createElement ResizeHandle 24 24))
    = Ret tt w' /\
    _opt w' = Some o' /\
    opt_get o' "minWidth" = VNumber 400 /\
    opt_get o' "minHeight" = VNumber 200 /\
    opt_get o' "maxWidth" = VNumber 1920 /\
    opt_get o' "maxHeight" = VNumber 1080 /\
    opt_get o' "keepAspectRatio" = VBoolean true /\
    _aspectRatio w' = VNumber (400 / 200) /\
    _width w' = VNumber 0 /\ _height w' = VNumber 0 /\
    get_value w' = VNumber 0.
Proof.
  destruct (ResizeHandle_init_defaults (page 1)
           (set_opt (<["keepAspectRatio" := VNumber 0]> (<["maxWidth" := VNumber 0]> ∅))
                    (createElement ResizeHandle 24 24))
           (<["keepAspectRatio" := VNumber 0]> (<["maxWidth" := VNumber 0]> ∅))
           400 200)
    as (w' & o' & R & B & H1 & H2 & H3 & H4 & H5 & H6 & H7 & H8 & H9).
  - reflexivity.
  - vm_compute. reflexivity.
  - vm_compute. reflexivity.
  - vm_compute. reflexivity.
  - vm_compute. discriminate.
  - exists w', o'. repeat split; assumption.
Defined.




(** X15. A continue step with no movement, on a resize handle whose size
    is within its bounds and, under the ratio lock, in the ratio, returns
    the handle as it was: nothing is stored and no event is dispatched. *)
Theorem resize_still_step
  (e : env) (w : widget) (o : gmap string value)
  (minW maxW minH maxH r cw ch : Q) :
  cls w = ResizeHandle ->
  _opt w = Some o ->
  opt_get o "minWidth" = VNumber minW ->
  opt_get o "maxWidth" = VNumber maxW ->
  opt_get o "minHeight" = VNumber minH ->
  opt_get o "maxHeight" = VNumber maxH ->
  _aspectRatio w = VNumber r ->
  _width w = VNumber cw ->
  _height w = VNumber ch ->
  minW <= cw <= maxW ->
  minH <= ch <= maxH ->
  (truthy (opt_get o "keepAspectRatio") = true -> cw == ch * r) ->
  _onControlEventContinue e (movement 0 0) w = Ret tt w.
Proof.
  intros C B L1 L2 L3 L4 A Wd Ht Hw Hh Hk.
  assert (Ew : Qmax minW (Qmin maxW (cw + 0)) == cw).
  { rewrite Qplus_0_r. apply clamp_fixed. exact Hw. }
  assert (Eh : Qmax minH (Qmin maxH (ch + 0)) == ch).
  { rewrite Qplus_0_r. apply clamp_fixed. exact Hh. }
  unfold _onControlEventContinue. rewrite C.
  unfold ResizeHandle__onControlEventContinue.
  unfold bind at 1. unfold read at 1. rewrite Wd.
  unfold bind at 1. cbn [number to_number].
  unfold bind at 1. cbn [number to_number movement movementX].
  unfold bind at 1. rewrite (_opt_read_some _ _ _ B), L1.
  unfold bind at 1. rewrite (_opt_read_some _ _ _ B), L2.
  unfold bind at 1. cbn [number to_number].
  unfold bind at 1. cbn [number to_number].
  unfold bind at 1. unfold read at 1. rewrite Ht.
  unfold bind at 1. cbn [number to_number].
  unfold bind at 1. cbn [number to_number movement movementY].
  unfold bind at 1. rewrite (_opt_read_some _ _ _ B), L3.
  unfold bind at 1. rewrite (_opt_read_some _ _ _ B), L4.
  unfold bind at 1. cbn [number to_number].
  unfold bind at 1. cbn [number to_number].
  unfold bind at 1. rewrite (_opt_read_some _ _ _ B).
  unfold bind at 1.
  destruct (truthy (opt_get o "keepAspectRatio")) eqn:K.
  - unfold bind at 1. unfold read at 1. rewrite A.
    unfold bind at 1. cbn [number to_number].
    change (Qlt_bool 0 0) with false. unfold ret. cbn [fst snd].
    assert (E1 : Qeq_bool cw (Qmax minH (Qmin maxH (ch + 0)) * r) = true).
    { apply Qeq_bool_iff. rewrite Eh. apply Hk. reflexivity. }
    assert (E2 : Qeq_bool ch (Qmax minH (Qmin maxH (ch + 0))) = true).
    { apply Qeq_bool_iff. symmetry. exact Eh. }
    rewrite E1, E2. reflexivity.
  - unfold ret. cbn [fst snd].
    assert (E1 : Qeq_bool cw (Qmax minW (Qmin maxW (cw + 0))) = true).
    { apply Qeq_bool_iff. symmetry. exact Ew. }
    assert (E2 : Qeq_bool ch (Qmax minH (Qmin maxH (ch + 0))) = true).
    { apply Qeq_bool_iff. symmetry. exact Eh. }
    rewrite E1, E2. reflexivity.
Qed.

Lemma resize_still_step_witness :
  _onControlEventContinue (page 2) (movement 0 0)
    (settled (_onControlEventStart (page 2) (phase "controlstart")) (handle 2))
  = Ret tt (settled (_onControlEventStart (page 2) (phase "controlstart")) (handle 2)).
Proof.
  apply (resize_still_step (page 2)
           (settled (_onControlEventStart (page 2) (phase "controlstart")) (handle 2))
           (<["keepAspectRatio" := VBoolean true]>
              (<["maxHeight" := VNumber 400]>
                 (<["maxWidth" := VNumber 800]>
                    (<["maxScale" := VNumber 2]>
                       (<["minHeight" := VNumber 200]>
                          (<["minWidth" := VNumber 400]> ∅))))))
           400 800 200 400 (400 # 200) 400 200).
  - reflexivity.
  - vm_compute. reflexivity.
  - vm_compute. reflexivity.
  - vm_compute. reflexivity.
  - vm_compute. reflexivity.
  - vm_compute. reflexivity.
  - vm_compute. reflexivity.
  - vm_compute. reflexivity.
  - vm_compute. reflexivity.
  - split; unfold Qle; simpl; lia.
  - split; unfold Qle; simpl; lia.
  - intros _. vm_compute. reflexivity.
Defined.

(** ** The gesture normalizer against the hooks *)

(** A property that the bookkeeping does not hold is shared. *)
Lemma follows_field {A} (f : widget -> A) (w1 w2 : widget) :
  (forall w, f (core w) = f w) -> follows w1 w2 -> f w1 = f w2.
Proof.
  intros Hf [Hc _]. rewrite <- (Hf w1), <- (Hf w2), Hc. reflexivity.
Qed.

(** An assignment to another property keeps the relation. *)
Lemma follows_assign (g : widget -> widget) (w1 w2 : widget) :
  (forall w, core (g w) = g (core w)) ->
  (forall w, dispatched (g w) = dispatched w) ->
  follows w1 w2 -> follows (g w1) (g w2).
Proof.
  intros Hg Hd [Hc Hi]. split.
  - rewrite !Hg, Hc. reflexivity.
  - rewrite !Hd. exact Hi.
Qed.

Section Respects.

Variable P : widget -> Prop.

Lemma respects_ret {A} (a : A) : respects P (ret a).
Proof. intros w1 w2 F H. split; [reflexivity|split; assumption]. Qed.

Lemma respects_bind {A B} (m : M A) (k : A -> M B) :
  respects P m -> (forall a, respects P (k a)) -> respects P (bind m k).
Proof.
  intros Hm Hk w1 w2 F H. unfold bind. specialize (Hm w1 w2 F H).
  destruct (m w1) as [a u1|x u1|]; destruct (m w2) as [b u2|y u2|];
    try contradiction; try exact Hm.
  destruct Hm as (-> & F' & H'). apply Hk; assumption.
Qed.

Lemma respects_read {A} (f : widget -> A) :
  (forall w, f (core w) = f w) -> respects P (read f).
Proof.
  intros Hf w1 w2 F H. unfold read.
  split; [apply follows_field; assumption|split; assumption].
Qed.

Lemma respects_assign (g : widget -> widget) :
  (forall w, core (g w) = g (core w)) ->
  (forall w, dispatched (g w) = dispatched w) ->
  (forall w, P w -> P (g w)) ->
  respects P (assign g).
Proof.
  intros Hg Hd HP w1 w2 F H. unfold assign.
  split; [reflexivity|]. split; [apply follows_assign; assumption|auto].
Qed.

Lemma respects_number (v : value) : respects P (number v).
Proof.
  intros w1 w2 F H. unfold number. destruct (to_number v); [|exact I].
  split; [reflexivity|split; assumption].
Qed.

Lemma respects_divide (a b : Q) : respects P (divide a b).
Proof.
  intros w1 w2 F H. unfold divide. destruct (Qeq_bool b 0); [exact I|].
  split; [reflexivity|split; assumption].
Qed.

Lemma respects_opt_read (k : string) : respects P (_opt_read k).
Proof.
  intros w1 w2 F H. unfold _opt_read.
  rewrite (follows_field _opt w1 w2 (fun _ => eq_refl) F).
  destruct (_opt w2); [split; [reflexivity|split; assumption]|].
  split; [reflexivity|assumption].
Qed.

Hypothesis P_dispatched : forall w l, P w -> P (set_dispatched l w).
Hypothesis P_value : forall w v, P w -> P (set_value v w).
Hypothesis P_children : forall w cs, P w -> P (set_children cs w).

Lemma respects_dispatch_input (v : value) : respects P (dispatchEvent (Input v)).
Proof.
  intros w1 w2 [Hc Hi] H. unfold dispatchEvent, assign.
  split; [reflexivity|]. split; [|apply P_dispatched; exact H].
  split; [exact Hc|]. cbn. rewrite Hi. reflexivity.
Qed.

Lemma respects_onSetValue (v : value) : respects P (_onSetValue v).
Proof.
  intros w1 w2 F H. unfold _onSetValue.
  rewrite (follows_field cls w1 w2 (fun _ => eq_refl) F).
  rewrite (follows_field children w1 w2 (fun _ => eq_refl) F).
  destruct (cls w2); try (split; [reflexivity|split; assumption]).
  destruct (children w2) as [|c cs].
  - split; [reflexivity|assumption].
  - split; [reflexivity|]. split; [|apply P_children; exact H].
    apply follows_assign; [reflexivity | reflexivity | exact F].
Qed.

Lemma respects_setValue (v flag : value) : respects P (_setValue v flag).
Proof.
  intros w1 w2 F H. unfold _setValue.
  rewrite (follows_field _value w1 w2 (fun _ => eq_refl) F).
  destruct (loose_eq (_value w2) v); [split; [reflexivity|split; assumption]|].
  revert w1 w2 F H.
  change (respects P
            (assign (set_value v) ;;
             (if negb (is_false flag)
              then let* cur := read _value in _onSetValue cur
              else ret tt) ;;
             let* cur := read _value in dispatchEvent (Input cur))).
  apply respects_bind; [|intros _].
  { apply respects_assign; [reflexivity | reflexivity | intros; apply P_value; assumption]. }
  apply respects_bind; [|intros _].
  { destruct (negb (is_false flag)); [|apply respects_ret].
    apply respects_bind; [apply respects_read; reflexivity|].
    intros cur. apply respects_onSetValue. }
  apply respects_bind; [apply respects_read; reflexivity|].
  intros cur. apply respects_dispatch_input.
Qed.

End Respects.

Ltac respects_step :=
  first
    [ apply respects_ret
    | apply respects_bind; [|intros ?]
    | apply respects_read; reflexivity
    | apply respects_assign; [reflexivity | reflexivity | intros ? ?; assumption]
    | apply respects_number
    | apply respects_divide
    | apply respects_opt_read
    | apply respects_setValue; intros; assumption
    | match goal with |- respects _ (if ?b then _ else _) => destruct b end ].

Section HooksRespect.

Variables x y : Q.
Variable e : env.
Variable ev : ControlEvent.

Lemma respects_Knob_start : respects (at_point x y) (Knob__onControlEventStart ev).
Proof. unfold Knob__onControlEventStart. repeat respects_step. Qed.

Lemma respects_Knob_continue : respects (at_point x y) (Knob__onControlEventContinue ev).
Proof. unfold Knob__onControlEventContinue, _range, _clamp. repeat respects_step. Qed.

Lemma respects_ResizeHandle_start :
  respects (at_point x y) (ResizeHandle__onControlEventStart e ev).
Proof. unfold ResizeHandle__onControlEventStart. repeat respects_step. Qed.

Lemma respects_ResizeHandle_continue :
  respects (at_point x y) (ResizeHandle__onControlEventContinue e ev).
Proof.
  unfold ResizeHandle__onControlEventContinue. cbv zeta. repeat respects_step.
Qed.

Lemma respects_start : respects (at_point x y) (_onControlEventStart e ev).
Proof.
  intros w1 w2 F H. unfold _onControlEventStart.
  rewrite (follows_field cls w1 w2 (fun _ => eq_refl) F).
  destruct (cls w2); try (split; [reflexivity|split; assumption]).
  - apply respects_ResizeHandle_start; assumption.
  - apply respects_Knob_start; assumption.
Qed.

Lemma respects_continue : respects (at_point x y) (_onControlEventContinue e ev).
Proof.
  intros w1 w2 F H. unfold _onControlEventContinue.
  rewrite (follows_field cls w1 w2 (fun _ => eq_refl) F).
  destruct (cls w2); try (split; [reflexivity|split; assumption]).
  - apply respects_ResizeHandle_continue; assumption.
  - apply respects_Knob_continue; assumption.
Qed.

End HooksRespect.

(** The continue phase of the normalizer against the hook: from the point
    ([x], [y]) to ([x'], [y']) the hook sees the movement between the
    two. *)
Lemma handleInputContinue_follows
  (e : env) (originalEvent : OriginalEvent) (x y x' y' : Q) (w1 w2 : widget) :
  follows w1 w2 ->
  at_point x y w1 ->
  outcomes_follow (at_point x' y')
    (_handleInputContinue e originalEvent (VNumber x') (VNumber y') w1)
    (_onControlEventContinue e (movement (x' - x) (y' - y)) w2).
Proof.
  intros F [Hx Hy].
  unfold _handleInputContinue.
  unfold bind at 1. unfold read at 1. rewrite Hx.
  unfold bind at 1. cbn [number to_number].
  unfold bind at 1. cbn [number to_number].
  unfold bind at 1. unfold read at 1. rewrite Hy.
  unfold bind at 1. cbn [number to_number].
  unfold bind at 1. cbn [number to_number].
  unfold bind at 1. unfold assign at 1.
  unfold bind at 1. unfold dispatchEvent, assign.
  match goal with
  | |- outcomes_follow _ (_onControlEventContinue e ?ev ?u1) _ =>
      change (_onControlEventContinue e ev u1)
        with (_onControlEventContinue e (movement (x' - x) (y' - y)) u1);
      apply (respects_continue x' y' e (movement (x' - x) (y' - y)) u1 w2)
  end.
  - destruct F as [Hc Hi]. split; [exact Hc | exact Hi].
  - split; reflexivity.
Qed.

Lemma moves_follow
  (e : env) (originalEvent : OriginalEvent) (path : list (Q * Q)) :
  forall (x y : Q) (w1 w2 : widget),
    follows w1 w2 ->
    at_point x y w1 ->
    outcomes_follow (at_point (fst (end_point x y path)) (snd (end_point x y path)))
      (moves e originalEvent path w1)
      (continues e (movements (deltas x y path)) w2).
Proof.
  induction path as [|[x' y'] path IH]; intros x y w1 w2 F H.
  - split; [reflexivity|]. split; [exact F | exact H].
  - cbn [moves deltas movements map continues end_point fst snd].
    pose proof (handleInputContinue_follows e originalEvent x y x' y' w1 w2 F H) as S.
    unfold bind.
    destruct (_handleInputContinue e originalEvent (VNumber x') (VNumber y') w1)
      as [a u1|z u1|];
      destruct (_onControlEventContinue e (movement (x' - x) (y' - y)) w2)
        as [b u2|z' u2|]; try contradiction; try exact S.
    destruct S as (_ & F' & H'). apply IH; assumption.
Qed.

(** X16. A drag reported by the device, down at a point, through the
    points of a path, released, has on every widget the outcome of the
    gesture whose continue steps carry the movements between successive
    points: both return, or both throw the same exception, or both leave
    the rationals, on widgets that differ only in the pointer bookkeeping
    and in the control events of the log (same value, same options, same
    [input] events); when they return, the pointer is recorded at the last
    point of the path. *)
Theorem drag_is_gesture_of_deltas
  (e : env) (originalEvent : OriginalEvent) (x y : Q) (path : list (Q * Q))
  (w : widget) :
  outcomes_follow (at_point (fst (end_point x y path)) (snd (end_point x y path)))
    (drag e originalEvent x y path w)
    (gesture e (movements (deltas x y path)) w).
Proof.
  unfold drag, gesture.
  assert (S : outcomes_follow (at_point x y)
                (_handleInputStart e originalEvent (VNumber x) (VNumber y) w)
                (_onControlEventStart e (phase "controlstart") w)).
  { cbv beta iota zeta delta [_handleInputStart bind assign dispatchEvent].
    match goal with
    | |- outcomes_follow _ (_onControlEventStart e ?ev ?u1) _ =>
        change (_onControlEventStart e ev u1)
          with (_onControlEventStart e (phase "controlstart") u1);
        apply (respects_start x y e (phase "controlstart") u1 w)
    end.
    - split; reflexivity.
    - split; reflexivity. }
  unfold bind at 1. unfold bind at 2.
  destruct (_handleInputStart e originalEvent (VNumber x) (VNumber y) w) as [a u1|z u1|];
    destruct (_onControlEventStart e (phase "controlstart") w) as [b u2|z' u2|];
    try contradiction; try exact S.
  destruct S as (_ & F & H).
  pose proof (moves_follow e originalEvent path x y u1 u2 F H) as Mv.
  unfold bind.
  destruct (moves e originalEvent path u1) as [a' v1|z v1|];
    destruct (continues e (movements (deltas x y path)) u2) as [b' v2|z' v2|];
    try contradiction; try exact Mv.
  destruct Mv as (_ & F' & H').
  unfold _handleInputEnd, _onControlEventEnd, bind, dispatchEvent, assign, ret.
  split; [reflexivity|]. split; [|exact H'].
  destruct F' as [Hc Hi]. split; [exact Hc | exact Hi].
Qed.

(** ** The load loop *)

(** X17. Whatever the registry does, the loop that registers a list of
    classes does not get past a class without a tag: if the classes before
    it registered, the loop ends with the [TypeError] that names that
    class, and the classes after it are never reached. *)
Theorem forEach_staticInit_stops
  (registry : Type)
  (define : string -> Registration.decl -> registry -> exn + registry)
  (pre post : list Registration.decl) (c : Registration.decl) (r : registry) :
  Registration.provides_tag c = false ->
  Registration.forEach_staticInit registry define (pre ++ c :: post) r
  = match Registration.forEach_staticInit registry define pre r with
    | inl x => inl x
    | inr _ =>
        inl (TypeError ("_unqualifiedNodeName not implemented for "
                          +:+ Registration.name c))
    end.
Proof.
  intros T. revert r. induction pre as [|p pre IH]; intros r.
  - cbn [app Registration.forEach_staticInit].
    unfold Registration._staticInit, Registration._unqualifiedNodeName.
    rewrite (RegistrationFacts.getter_without_tag c c T). reflexivity.
  - cbn [app Registration.forEach_staticInit].
    destruct (Registration._staticInit registry define p r) as [x|r'].
    + reflexivity.
    + apply IH.
Qed.

Lemma forEach_staticInit_stops_witness :
  Registration.forEach_staticInit _ Registration.define_once
    ([Registration.ResizeHandle] ++ Registration.RangeInputWidget :: [Registration.Knob]) []
  = inl (TypeError "_unqualifiedNodeName not implemented for RangeInputWidget").
Proof.
  rewrite (forEach_staticInit_stops _ Registration.define_once
             [Registration.ResizeHandle] [Registration.Knob]
             Registration.RangeInputWidget []).
  - vm_compute. reflexivity.
  - reflexivity.
Defined.

(** ** The page and the host *)

(** What the listener hears of a write that dispatched one event. *)
Lemma heard_one (v : value) (w w' : widget) :
  dispatched w' = Input v :: dispatched w -> heard w w' = [Input v].
Proof.
  intros H. unfold heard. rewrite H. cbn [length].
  replace (S (length (dispatched w)) - length (dispatched w))%nat with 1%nat by lia.
  reflexivity.
Qed.

Lemma heard_none (w : widget) : heard w w = [].
Proof. unfold heard. rewrite Nat.sub_diag. reflexivity. Qed.

(** X18. [parameterChanged] echoes.  When the host reports a value for
    parameter 0 or 1 that differs from the one the knob stores, the knob
    stores it as it is, without clamping, and the knob's listener sends
    it back to the host with [setParameterValue]; a value equal to the
    stored one changes nothing and calls nothing; any other index leaves
    the page as it was. *)
Theorem parameterChanged_echoes
  (index v : value) (fb lp : widget) (calls : list host_call) :
  (cls fb = Knob -> children fb <> []) ->
  (cls lp = Knob -> children lp <> []) ->
  if is_case 0 index then
    if loose_eq (_value fb) v
    then parameterChanged index v (mkUI fb lp calls) = Done (mkUI fb lp calls)
    else exists w',
           parameterChanged index v (mkUI fb lp calls)
           = Done (mkUI w' lp (SetParameterValue 0 v :: calls)) /\
           get_value w' = v
  else if is_case 1 index then
    if loose_eq (_value lp) v
    then parameterChanged index v (mkUI fb lp calls) = Done (mkUI fb lp calls)
    else exists w',
           parameterChanged index v (mkUI fb lp calls)
           = Done (mkUI fb w' (SetParameterValue 1 v :: calls)) /\
           get_value w' = v
  else parameterChanged index v (mkUI fb lp calls) = Done (mkUI fb lp calls).
Proof.
  intros K0 K1. unfold parameterChanged. cbn [p_feedback p_lpfreq host].
  destruct (is_case 0 index); [|destruct (is_case 1 index); [|reflexivity]].
  - destruct (loose_eq (_value fb) v) eqn:L.
    + unfold set_value_public. rewrite (_setValue_same v VUndefined _ L).
      unfold listener. rewrite heard_none. reflexivity.
    + destruct (_setValue_changed v VUndefined fb K0 L)
        as (w' & R & V & D & _).
      exists w'. unfold set_value_public. rewrite R.
      unfold listener. rewrite (heard_one v _ _ D).
      cbn [inputs map app]. unfold get_value. rewrite V. split; reflexivity.
  - destruct (loose_eq (_value lp) v) eqn:L.
    + unfold set_value_public. rewrite (_setValue_same v VUndefined _ L).
      unfold listener. rewrite heard_none. reflexivity.
    + destruct (_setValue_changed v VUndefined lp K1 L)
        as (w' & R & V & D & _).
      exists w'. unfold set_value_public. rewrite R.
      unfold listener. rewrite (heard_one v _ _ D).
      cbn [inputs map app]. unfold get_value. rewrite V. split; reflexivity.
Qed.

Lemma parameterChanged_echoes_witness :
  exists w',
    parameterChanged (VNumber 1) (VNumber 5) (mkUI feedback lpfreq [])
    = Done (mkUI feedback w' [SetParameterValue 1 (VNumber 5)]) /\
    get_value w' = VNumber 5.
Proof.
  apply (parameterChanged_echoes (VNumber 1) (VNumber 5) feedback lpfreq []).
  - vm_compute. discriminate.
  - vm_compute. discriminate.
Defined.

(** ** The persisted window size *)

Lemma split_on_length (c : Ascii.ascii) (s : string) :
  length (split_on c s) = S (occurrences c s).
Proof.
  induction s as [|a s IH]; [reflexivity|].
  cbn [split_on occurrences]. destruct (Ascii.eqb a c).
  - cbn [length]. rewrite IH. reflexivity.
  - destruct (split_on c s) as [|h t]; [discriminate|].
    cbn [length] in *. exact IH.
Qed.

(** One piece is the whole text. *)
Lemma split_on_one (c : Ascii.ascii) (s b : string) :
  split_on c s = [b] -> s = b.
Proof.
  revert b. induction s as [|y s IH]; intros b H.
  - injection H as <-. reflexivity.
  - cbn [split_on] in H. pose proof (split_on_length c s) as Hl.
    destruct (split_on c s) as [|h t]; [discriminate|].
    destruct (Ascii.eqb y c); [discriminate|].
    injection H as <- ->. f_equal. apply IH. reflexivity.
Qed.

(** Two pieces are the text before and after the one separator. *)
Lemma split_on_two (c : Ascii.ascii) (s a b : string) :
  split_on c s = [a; b] ->
  s = (a +:+ String c b) /\ occurrences c a = 0%nat /\ occurrences c b = 0%nat.
Proof.
  revert a b. induction s as [|x s IH]; intros a b H.
  - discriminate.
  - cbn [split_on] in H. destruct (Ascii.eqb x c) eqn:E.
    + apply Ascii.eqb_eq in E. subst x. injection H as <- H.
      pose proof (split_on_length c s) as Hl. rewrite H in Hl.
      cbn [length] in Hl. assert (Ho : occurrences c s = 0%nat) by lia.
      apply split_on_one in H. subst b. repeat split. exact Ho.
    + destruct (split_on c s) as [|h t] eqn:Sp; [discriminate|].
      injection H as <- ->.
      destruct (IH h b eq_refl) as (-> & Ha & Hb).
      repeat split; [|exact Hb].
      cbn [occurrences]. rewrite E, Ha. reflexivity.
Qed.

(** X19. [stateChanged] of [ui.js].  For a key other than [ui_size] it
    does nothing.  For [ui_size] it always makes the body visible, and it
    calls [setSize] exactly when the value holds one [x]: then with
    [parseInt] of the text before it and of the text after it, whatever
    those texts are (also when both are empty); a value with no [x] or
    with more than one is ignored. *)
Theorem stateChanged_ui_size
  (parseInt : string -> value) (key v : string) (win : window) :
  if String.eqb key "ui_size" then
    if Nat.eqb (occurrences letter_x v) 1 then
      exists a b,
        v = (a +:+ String letter_x b) /\
        occurrences letter_x a = 0%nat /\ occurrences letter_x b = 0%nat /\
        stateChanged parseInt key v win
        = mkWindow ((parseInt a, parseInt b) :: sizes win) true
    else stateChanged parseInt key v win = mkWindow (sizes win) true
  else stateChanged parseInt key v win = win.
Proof.
  unfold stateChanged. destruct (String.eqb key "ui_size"); [|reflexivity].
  pose proof (split_on_length letter_x v) as Hl.
  destruct (Nat.eqb (occurrences letter_x v) 1) eqn:E.
  - apply Nat.eqb_eq in E. rewrite E in Hl.
    destruct (split_on letter_x v) as [|a [|b [|c t]]] eqn:Sp; try discriminate.
    destruct (split_on_two _ _ _ _ Sp) as (Hv & Ha & Hb).
    exists a, b. repeat split; assumption.
  - apply Nat.eqb_neq in E.
    destruct (split_on letter_x v) as [|a [|b [|c t]]] eqn:Sp; try reflexivity.
    exfalso. apply E. cbn [length] in Hl. lia.
Qed.
